(** * FiPy examples: the gap-fill composite mesh

    A shallow embedding of [examples/levelSet/electroChem/gapFillMesh.py].

    The class [GapFillMesh] derives three integer cell counts from five
    physical lengths, builds a fine [Grid2D], asks for the version of the
    external mesh generator, formats a geometry script and hands it to the
    constructor of its superclass [Gmsh2D].

    The five lengths are Python floats, as in the docstring and the doctest
    of the class.  Python floats are IEEE 754 binary64 numbers: they are
    modelled by [spec_float] with the operations of precision 53 and maximal
    exponent 1024, rounding to nearest even.  Python integers are unbounded:
    [Z].  Exceptions are values; the calls into the mesh library are the
    nodes of a program tree that a handler interprets over an explicit world
    state.

    [examples/convection/source.py] is a doctest and the two lines that run
    it; there is nothing in it to embed. *)

From Stdlib Require Import ZArith QArith Qround Lia Bool List.
From Stdlib Require Import Ascii String.
From Stdlib Require Import SpecFloat PrimFloat FloatOps.
Import ListNotations.

Local Open Scope Z_scope.
Local Open Scope string_scope.
#[local] Set Warnings "-inexact-float".

(** ** Exceptions and the error monad *)

(** The exceptions the constructor can meet.  [LibraryError] stands for
    whatever a call into the mesh library raises, tagged by its message. *)
Inductive exn : Type :=
| ZeroDivisionError
| OverflowError
| ValueError
| TypeError
| KeyError (key : string)
| LibraryError (msg : string).

Definition result (A : Type) : Type := (exn + A)%type.

Definition ret {A : Type} (a : A) : result A := inr a.
Definition raise {A : Type} (e : exn) : result A := inl e.

Definition bind {A B : Type} (m : result A) (k : A -> result B) : result B :=
  match m with
  | inl e => inl e
  | inr a => k a
  end.

Declare Scope py_scope.
Delimit Scope py_scope with py.
Notation "x <- m ;; k" := (bind m (fun x => k))
  (at level 100, m at next level, right associativity) : py_scope.
Local Open Scope py_scope.

(** ** Python numbers *)

Module Py.

(** A Python [float]. *)
Definition float : Type := spec_float.

Definition fdiv : float -> float -> float := SFdiv prec emax.
Definition fmul : float -> float -> float := SFmul prec emax.
Definition fsub : float -> float -> float := SFsub prec emax.

(** The literal [0.] *)
Definition zero : float := S754_zero false.

Definition is_zero (x : float) : bool :=
  match x with
  | S754_zero _ => true
  | _ => false
  end.

(** [x > y] and [x >= y] on floats: false as soon as one side is a NaN. *)
Definition gt (x y : float) : bool := SFltb y x.
Definition ge (x y : float) : bool := SFleb y x.

(** [float(n)] for an integer [n], also the conversion that mixed
    arithmetic applies to its integer operand: the nearest float, ties to
    even, and [OverflowError] when [n] is beyond the largest float. *)
Definition float_of_int (n : Z) : result float :=
  match binary_normalize prec emax n 0 false with
  | S754_infinity _ => raise OverflowError
  | x => ret x
  end.

(** [x / y] on floats: a zero divisor raises, everything else is the
    IEEE quotient (infinities and NaN included). *)
Definition div (x y : float) : result float :=
  if is_zero y then raise ZeroDivisionError else ret (fdiv x y).

(** [n * x] with [n] an integer and [x] a float. *)
Definition int_mul (n : Z) (x : float) : result float :=
  fn <- float_of_int n ;; ret (fmul fn x).

(** [x / n] with [x] a float and [n] an integer. *)
Definition div_int (x : float) (n : Z) : result float :=
  fn <- float_of_int n ;; div x fn.

(** [int(x)] on a float: the integral part, the fraction bits shifted
    out; NaN and the infinities raise. *)
Definition int (x : float) : result Z :=
  match x with
  | S754_nan => raise ValueError
  | S754_infinity _ => raise OverflowError
  | S754_zero _ => ret 0
  | S754_finite s m e => ret (cond_Zopp s (Z.shiftl (Zpos m) e))
  end.

(** A float literal of the source, read by the kernel's binary64. *)
Definition lit (x : PrimFloat.float) : float := Prim2SF x.

End Py.

(** ** The sizing arithmetic of [GapFillMesh.__init__] *)

(** The local variables that lines 141 to 148 of [gapFillMesh.py] bind. *)
Record dimensions : Type := {
  nx : Z;
  ny : Z;
  actualFineRegionHeight : Py.float;
  actualDomainWidth : Py.float;
  boundaryLayerHeight : Py.float;
  numberOfBoundaryLayerCells : Z
}.

(** Lines 141 to 148: the fine region cell counts, the actual mesh
    dimensions and the number of boundary layer cells. *)
Definition mesh_dimensions
    (cellSize desiredDomainWidth desiredDomainHeight
     desiredFineRegionHeight transitionRegionHeight : Py.float)
  : result dimensions :=
  qx <- Py.div desiredDomainWidth cellSize ;;
  nx <- Py.int qx ;;
  qy <- Py.div desiredFineRegionHeight cellSize ;;
  ny <- Py.int qy ;;
  actualFineRegionHeight <- Py.int_mul ny cellSize ;;
  actualDomainWidth <- Py.int_mul nx cellSize ;;
  let boundaryLayerHeight :=
    Py.fsub (Py.fsub desiredDomainHeight actualFineRegionHeight)
            transitionRegionHeight in
  qb <- Py.div boundaryLayerHeight actualDomainWidth ;;
  numberOfBoundaryLayerCells <- Py.int qb ;;
  ret {| nx := nx;
         ny := ny;
         actualFineRegionHeight := actualFineRegionHeight;
         actualDomainWidth := actualDomainWidth;
         boundaryLayerHeight := boundaryLayerHeight;
         numberOfBoundaryLayerCells := numberOfBoundaryLayerCells |}.

(** ** String formatting with a mapping: [template % locals()] *)

(** A number that [%g] accepts. *)
Inductive number : Type :=
| Int (n : Z)
| Float (x : Py.float).

(** A value bound in [locals()]: a number, or some other object. *)
Inductive pyobj : Type :=
| Num (x : number)
| Obj.

Fixpoint lookup (key : string) (d : list (string * pyobj)) : result pyobj :=
  match d with
  | [] => raise (KeyError key)
  | (k, v) :: d' => if String.eqb k key then ret v else lookup key d'
  end.

(** Where the scan of a template stands: in plain text, after a [%], inside
    the parentheses of a mapping key, or after the key with its value found,
    at the conversion character. *)
Inductive scan : Type :=
| Text
| Percent
| Name (acc : string)
| Conversion (v : pyobj).

Section Format.

(** [format_g x] is the text of ['%g' % x] for a number [x]; it belongs to
    the Python runtime. *)
Variable format_g : number -> string.

Definition conv_g (v : pyobj) : result string :=
  match v with
  | Num x => ret (format_g x)
  | Obj => raise TypeError
  end.

(** The [%] operator on a template and a mapping, for the conversions the
    geometry script uses: [%(key)g] and the escape [%%]. *)
Fixpoint format_from (d : list (string * pyobj)) (st : scan) (t : string)
  : result string :=
  match t with
  | EmptyString =>
      match st with
      | Text => ret EmptyString
      | _ => raise ValueError
      end
  | String c t' =>
      match st with
      | Text =>
          if Ascii.eqb c "%" then format_from d Percent t'
          else s <- format_from d Text t' ;; ret (String c s)
      | Percent =>
          if Ascii.eqb c "(" then format_from d (Name EmptyString) t'
          else if Ascii.eqb c "%" then
            s <- format_from d Text t' ;; ret (String c s)
          else raise ValueError
      | Name acc =>
          if Ascii.eqb c ")" then
            v <- lookup acc d ;; format_from d (Conversion v) t'
          else format_from d (Name (acc ++ String c EmptyString)) t'
      | Conversion v =>
          if Ascii.eqb c "g" then
            s1 <- conv_g v ;;
            s <- format_from d Text t' ;;
            ret (s1 ++ s)
          else raise ValueError
      end
  end.

Definition py_mod (t : string) (d : list (string * pyobj)) : result string :=
  format_from d Text t.

End Format.

(** The geometry script template of lines 159 to 189, as it stands between
    the triple quotes. *)
Definition geometry_template : string :=
"
        ny       = %(ny)g;
        cellSize = %(cellSize)g - %(eps)g;
        height   = %(actualFineRegionHeight)g;
        width    = %(actualDomainWidth)g;
        boundaryLayerHeight = %(boundaryLayerHeight)g;
        transitionRegionHeight = %(transitionRegionHeight)g;
        numberOfBoundaryLayerCells = %(numberOfBoundaryLayerCells)g;

        Point(1) = {0, 0, 0, cellSize};
        Point(2) = {width, 0, 0, cellSize};
        Line(3) = {1, 2};

        Point(10) = {0, height, 0, cellSize};
        Point(11) = {width, height, 0, cellSize};
        Point(12) = {0, height + transitionRegionHeight, 0, width};
        Point(13) = {width, height + transitionRegionHeight, 0, width};
        Line(14) = {10,11};
        Line(15) = {11,13};
        Line(16) = {13,12};
        Line(17) = {12,10};
        Line Loop(18) = {14, 15, 16, 17};
        Plane Surface(19) = {18};

        Extrude{0, height, 0} {
            Line{3}; Layers{ ny }; Recombine;}

        Line(100) = {12, 13};
        Extrude{0, boundaryLayerHeight, 0} {
            Line{100}; Layers{ numberOfBoundaryLayerCells }; Recombine;}
        ".

(** ** The constructor as a program over the mesh library *)

(** What the constructor takes from outside this file: the objects of the
    mesh library (communicators, the [Grid2D] mesh, the state that
    [Gmsh2D.__init__] sets up), [StrictVersion] with its comparison, and the
    runtime's rendering of [%g].  The rendering is total: the numbers the
    constructor formats are floats and truncations of finite floats, which
    [%g] never refuses. *)
Class Environment : Type := {
  Comm : Type;
  Grid : Type;
  Gmsh : Type;
  Version : Type;
  serialComm : Comm;
  parallelComm : Comm;
  StrictVersion : string -> Version;
  version_lt : Version -> Version -> bool;
  format_g : number -> string
}.

Section Constructor.

Context {E : Environment}.

(** The calls that leave this file. *)
Inductive call : Type :=
| Grid2D (nx ny : Z) (dx dy : Py.float) (communicator : Comm)
| _gmshVersion
| Gmsh2D_init (script : string) (communicator : Comm).

Definition answer (c : call) : Type :=
  match c with
  | Grid2D _ _ _ _ _ => Grid
  | _gmshVersion => Version
  | Gmsh2D_init _ _ => Gmsh
  end.

(** A program: it returns, raises, or calls the library and goes on with the
    answer.  There is no construct that catches an exception, as there is no
    [try] in the source. *)
Inductive prog (A : Type) : Type :=
| Ret (a : A)
| Raise (e : exn)
| Call (c : call) (k : answer c -> prog A).

Arguments Ret {A} a.
Arguments Raise {A} e.
Arguments Call {A} c k.

Fixpoint pbind {A B : Type} (p : prog A) (f : A -> prog B) : prog B :=
  match p with
  | Ret a => f a
  | Raise e => Raise e
  | Call c k => Call c (fun a => pbind (k a) f)
  end.

Definition lift {A : Type} (m : result A) : prog A :=
  match m with
  | inl e => Raise e
  | inr a => Ret a
  end.

Definition perform (c : call) : prog (answer c) := Call c Ret.

Notation "x <~ p ;; k" := (pbind p (fun x => k))
  (at level 100, p at next level, right associativity).

(** The object under construction: the attribute [fineMesh] and the part the
    superclass initialises. *)
Record GapFillMesh : Type := {
  fineMesh : Grid;
  base : Gmsh
}.

(** [locals()] at line 189. *)
Definition locals
    (cellSize desiredDomainWidth desiredDomainHeight
     desiredFineRegionHeight transitionRegionHeight : Py.float)
    (d : dimensions) (eps : Py.float) : list (string * pyobj) :=
  [ ("self", Obj);
    ("cellSize", Num (Float cellSize));
    ("desiredDomainWidth", Num (Float desiredDomainWidth));
    ("desiredDomainHeight", Num (Float desiredDomainHeight));
    ("desiredFineRegionHeight", Num (Float desiredFineRegionHeight));
    ("transitionRegionHeight", Num (Float transitionRegionHeight));
    ("communicator", Obj);
    ("nx", Num (Int (nx d)));
    ("ny", Num (Int (ny d)));
    ("actualFineRegionHeight", Num (Float (actualFineRegionHeight d)));
    ("actualDomainWidth", Num (Float (actualDomainWidth d)));
    ("boundaryLayerHeight", Num (Float (boundaryLayerHeight d)));
    ("numberOfBoundaryLayerCells", Num (Int (numberOfBoundaryLayerCells d)));
    ("eps", Num (Float eps)) ].

(** Lines 153 to 157: the offset [eps] of the cell size. *)
Definition offset (cellSize : Py.float) (nx : Z) (v : Version)
  : result Py.float :=
  if version_lt v (StrictVersion "2.7") then Py.div_int cellSize (nx * 10)
  else ret Py.zero.

(** [GapFillMesh.__init__], lines 116 to 189. *)
Definition __init__
    (cellSize desiredDomainWidth desiredDomainHeight
     desiredFineRegionHeight transitionRegionHeight : Py.float)
    (communicator : Comm) : prog GapFillMesh :=
  d <~ lift (mesh_dimensions cellSize desiredDomainWidth desiredDomainHeight
               desiredFineRegionHeight transitionRegionHeight) ;;
  fine <~ perform (Grid2D (nx d) (ny d) cellSize cellSize serialComm) ;;
  v <~ perform _gmshVersion ;;
  eps <~ lift (offset cellSize (nx d) v) ;;
  script <~ lift (py_mod format_g geometry_template
                    (locals cellSize desiredDomainWidth desiredDomainHeight
                       desiredFineRegionHeight transitionRegionHeight d eps)) ;;
  g <~ perform (Gmsh2D_init script communicator) ;;
  Ret {| fineMesh := fine; base := g |}.

(** *** Running a program against the library *)

(** The library as a handler over a world state [W]: every call returns an
    answer or raises, and leaves a new world. *)
Definition handler (W : Type) : Type :=
  forall c : call, W -> result (answer c) * W.

Fixpoint run {W A : Type} (h : handler W) (p : prog A) (w : W)
  : result A * W :=
  match p with
  | Ret a => (inr a, w)
  | Raise e => (inl e, w)
  | Call c k =>
      match h c w with
      | (inl e, w') => (inl e, w')
      | (inr a, w') => run h (k a) w'
      end
  end.

(** The first call a program makes, if it makes one. *)
Definition first_call {A : Type} (p : prog A) : option call :=
  match p with
  | Call c _ => Some c
  | _ => None
  end.

End Constructor.

Arguments Ret {E A} a.
Arguments Raise {E A} e.
Arguments Call {E A} c k.

(** ** Vocabulary of the statements *)

(** The outcome of a computation that may raise, with the exception
    forgotten. *)
Definition defined {A : Type} (m : result A) : option A :=
  match m with
  | inl _ => None
  | inr a => Some a
  end.

(** The exact value of a float that has one: zeros and finite numbers. *)
Definition value (x : Py.float) : option Q :=
  match x with
  | S754_zero _ => Some 0%Q
  | S754_finite s m (Zneg k) => Some (cond_Zopp s (Zpos m) # 2 ^ k)
  | S754_finite s m e => Some (inject_Z (cond_Zopp s (Zpos m) * 2 ^ e))
  | _ => None
  end.

(** Truncation toward zero of a rational number. *)
Definition Qtrunc (q : Q) : Z := Z.quot (Qnum q) (Zpos (Qden q)).

(** Truncation toward zero of a float: of its exact value, and undefined
    where the float has none. *)
Definition truncation (x : Py.float) : option Z := option_map Qtrunc (value x).



Definition counts (d : dimensions) : Z * Z * Z :=
  (nx d, ny d, numberOfBoundaryLayerCells d).

(** A float strictly below zero.  Zeros of either sign and NaN are not. *)
Definition negative (x : Py.float) : bool :=
  match x with
  | S754_finite true _ _ | S754_infinity true => true
  | _ => false
  end.

(** A float that carries the sign [s], or no sign at all. *)
Definition signed (s : bool) (x : Py.float) : Prop :=
  match x with
  | S754_zero s' | S754_infinity s' | S754_finite s' _ _ => s' = s
  | S754_nan => True
  end.


(** The geometry script with its numbers in place: the template, each
    [%(name)g] replaced by the rendering of the local variable [name]. *)
Definition script_text {E : Environment}
    (cellSize transitionRegionHeight : Py.float) (d : dimensions)
    (eps : Py.float) : string :=
  "
        ny       = " ++
  format_g (Int (ny d)) ++
  ";
        cellSize = " ++
  format_g (Float cellSize) ++
  " - " ++
  format_g (Float eps) ++
  ";
        height   = " ++
  format_g (Float (actualFineRegionHeight d)) ++
  ";
        width    = " ++
  format_g (Float (actualDomainWidth d)) ++
  ";
        boundaryLayerHeight = " ++
  format_g (Float (boundaryLayerHeight d)) ++
  ";
        transitionRegionHeight = " ++
  format_g (Float transitionRegionHeight) ++
  ";
        numberOfBoundaryLayerCells = " ++
  format_g (Int (numberOfBoundaryLayerCells d)) ++
  ";

        Point(1) = {0, 0, 0, cellSize};
        Point(2) = {width, 0, 0, cellSize};
        Line(3) = {1, 2};

        Point(10) = {0, height, 0, cellSize};
        Point(11) = {width, height, 0, cellSize};
        Point(12) = {0, height + transitionRegionHeight, 0, width};
        Point(13) = {width, height + transitionRegionHeight, 0, width};
        Line(14) = {10,11};
        Line(15) = {11,13};
        Line(16) = {13,12};
        Line(17) = {12,10};
        Line Loop(18) = {14, 15, 16, 17};
        Plane Surface(19) = {18};

        Extrude{0, height, 0} {
            Line{3}; Layers{ ny }; Recombine;}

        Line(100) = {12, 13};
        Extrude{0, boundaryLayerHeight, 0} {
            Line{100}; Layers{ numberOfBoundaryLayerCells }; Recombine;}
        ".

(** The line of the geometry script that sets the cell size. *)
Definition cell_size_line {E : Environment} (cellSize eps : Py.float)
  : string :=
  "cellSize = " ++ format_g (Float cellSize) ++ " - " ++
  format_g (Float eps) ++ ";".

(** The script up to that line, and after it. *)
Definition script_before_cell_size {E : Environment} (d : dimensions)
  : string :=
  "
        ny       = " ++ format_g (Int (ny d)) ++ ";
        ".

Definition script_after_cell_size {E : Environment}
    (transitionRegionHeight : Py.float) (d : dimensions) : string :=
  "
        height   = " ++
  format_g (Float (actualFineRegionHeight d)) ++
  ";
        width    = " ++
  format_g (Float (actualDomainWidth d)) ++
  ";
        boundaryLayerHeight = " ++
  format_g (Float (boundaryLayerHeight d)) ++
  ";
        transitionRegionHeight = " ++
  format_g (Float transitionRegionHeight) ++
  ";
        numberOfBoundaryLayerCells = " ++
  format_g (Int (numberOfBoundaryLayerCells d)) ++
  ";

        Point(1) = {0, 0, 0, cellSize};
        Point(2) = {width, 0, 0, cellSize};
        Line(3) = {1, 2};

        Point(10) = {0, height, 0, cellSize};
        Point(11) = {width, height, 0, cellSize};
        Point(12) = {0, height + transitionRegionHeight, 0, width};
        Point(13) = {width, height + transitionRegionHeight, 0, width};
        Line(14) = {10,11};
        Line(15) = {11,13};
        Line(16) = {13,12};
        Line(17) = {12,10};
        Line Loop(18) = {14, 15, 16, 17};
        Plane Surface(19) = {18};

        Extrude{0, height, 0} {
            Line{3}; Layers{ ny }; Recombine;}

        Line(100) = {12, 13};
        Extrude{0, boundaryLayerHeight, 0} {
            Line{100}; Layers{ numberOfBoundaryLayerCells }; Recombine;}
        ".

(** [line] stands somewhere in [s]. *)
Definition occurs (line s : string) : Prop :=
  exists pre post : string, s = pre ++ line ++ post.

(** The last step of the constructor: the call of the superclass
    constructor, and the object when it returns. *)
Definition finish {E : Environment} {W : Type} (h : handler W) (w : W)
    (fine : Grid) (script : string) (communicator : Comm)
  : result GapFillMesh * W :=
  match h (Gmsh2D_init script communicator) w with
  | (inl e, w') => (inl e, w')
  | (inr g, w') => (inr {| fineMesh := fine; base := g |}, w')
  end.

(** What a run of the constructor comes to, step by step. *)
Definition outcome {E : Environment} {W : Type} (h : handler W) (w : W)
    (cellSize desiredDomainWidth desiredDomainHeight
     desiredFineRegionHeight transitionRegionHeight : Py.float)
    (communicator : Comm) : result GapFillMesh * W :=
  match mesh_dimensions cellSize desiredDomainWidth desiredDomainHeight
          desiredFineRegionHeight transitionRegionHeight with
  | inl e => (inl e, w)
  | inr d =>
      match h (Grid2D (nx d) (ny d) cellSize cellSize serialComm) w with
      | (inl e, w1) => (inl e, w1)
      | (inr fine, w1) =>
          match h _gmshVersion w1 with
          | (inl e, w2) => (inl e, w2)
          | (inr v, w2) =>
              match offset cellSize (nx d) v with
              | inl e => (inl e, w2)
              | inr eps =>
                  finish h w2 fine
                    (script_text cellSize transitionRegionHeight d eps)
                    communicator
              end
          end
      end
  end.

(** A step of the constructor raises [e] and leaves the world [w']: the
    sizing arithmetic, [Grid2D], [_gmshVersion], the arithmetic of the
    offset, the formatting of the script, or [Gmsh2D.__init__]. *)
Inductive fails {E : Environment} {W : Type} (h : handler W) (w : W)
    (cellSize desiredDomainWidth desiredDomainHeight
     desiredFineRegionHeight transitionRegionHeight : Py.float)
    (communicator : Comm) : exn -> W -> Prop :=
| fails_arithmetic (e : exn) :
    mesh_dimensions cellSize desiredDomainWidth desiredDomainHeight
      desiredFineRegionHeight transitionRegionHeight = inl e ->
    fails h w cellSize desiredDomainWidth desiredDomainHeight
      desiredFineRegionHeight transitionRegionHeight communicator e w
| fails_Grid2D (d : dimensions) (e : exn) (w1 : W) :
    mesh_dimensions cellSize desiredDomainWidth desiredDomainHeight
      desiredFineRegionHeight transitionRegionHeight = inr d ->
    h (Grid2D (nx d) (ny d) cellSize cellSize serialComm) w = (inl e, w1) ->
    fails h w cellSize desiredDomainWidth desiredDomainHeight
      desiredFineRegionHeight transitionRegionHeight communicator e w1
| fails_gmshVersion (d : dimensions) (fine : Grid) (w1 : W) (e : exn)
    (w2 : W) :
    mesh_dimensions cellSize desiredDomainWidth desiredDomainHeight
      desiredFineRegionHeight transitionRegionHeight = inr d ->
    h (Grid2D (nx d) (ny d) cellSize cellSize serialComm) w = (inr fine, w1) ->
    h _gmshVersion w1 = (inl e, w2) ->
    fails h w cellSize desiredDomainWidth desiredDomainHeight
      desiredFineRegionHeight transitionRegionHeight communicator e w2
| fails_offset (d : dimensions) (fine : Grid) (w1 : W) (v : Version)
    (w2 : W) (e : exn) :
    mesh_dimensions cellSize desiredDomainWidth desiredDomainHeight
      desiredFineRegionHeight transitionRegionHeight = inr d ->
    h (Grid2D (nx d) (ny d) cellSize cellSize serialComm) w = (inr fine, w1) ->
    h _gmshVersion w1 = (inr v, w2) ->
    offset cellSize (nx d) v = inl e ->
    fails h w cellSize desiredDomainWidth desiredDomainHeight
      desiredFineRegionHeight transitionRegionHeight communicator e w2
| fails_format (d : dimensions) (fine : Grid) (w1 : W) (v : Version)
    (w2 : W) (eps : Py.float) (e : exn) :
    mesh_dimensions cellSize desiredDomainWidth desiredDomainHeight
      desiredFineRegionHeight transitionRegionHeight = inr d ->
    h (Grid2D (nx d) (ny d) cellSize cellSize serialComm) w = (inr fine, w1) ->
    h _gmshVersion w1 = (inr v, w2) ->
    offset cellSize (nx d) v = inr eps ->
    py_mod format_g geometry_template
      (locals cellSize desiredDomainWidth desiredDomainHeight
         desiredFineRegionHeight transitionRegionHeight d eps) = inl e ->
    fails h w cellSize desiredDomainWidth desiredDomainHeight
      desiredFineRegionHeight transitionRegionHeight communicator e w2
| fails_Gmsh2D (d : dimensions) (fine : Grid) (w1 : W) (v : Version)
    (w2 : W) (eps : Py.float) (script : string) (e : exn) (w3 : W) :
    mesh_dimensions cellSize desiredDomainWidth desiredDomainHeight
      desiredFineRegionHeight transitionRegionHeight = inr d ->
    h (Grid2D (nx d) (ny d) cellSize cellSize serialComm) w = (inr fine, w1) ->
    h _gmshVersion w1 = (inr v, w2) ->
    offset cellSize (nx d) v = inr eps ->
    py_mod format_g geometry_template
      (locals cellSize desiredDomainWidth desiredDomainHeight
         desiredFineRegionHeight transitionRegionHeight d eps) = inr script ->
    h (Gmsh2D_init script communicator) w2 = (inl e, w3) ->
    fails h w cellSize desiredDomainWidth desiredDomainHeight
      desiredFineRegionHeight transitionRegionHeight communicator e w3.

(** Two programs that go the same way call by call, raise the same
    exception if they raise, and end by handing [c1], respectively [c2],
    with one and the same script to [Gmsh2D.__init__] and returning the same
    object for the same answer.  No other way of returning is related. *)
Inductive forwards {E : Environment} {A : Type} (c1 c2 : Comm)
  : prog A -> prog A -> Prop :=
| forwards_raise (e : exn) : forwards c1 c2 (Raise e) (Raise e)
| forwards_Grid2D (nx ny : Z) (dx dy : Py.float) (c : Comm)
    (k1 k2 : Grid -> prog A) :
    (forall a, forwards c1 c2 (k1 a) (k2 a)) ->
    forwards c1 c2 (Call (Grid2D nx ny dx dy c) k1)
      (Call (Grid2D nx ny dx dy c) k2)
| forwards_gmshVersion (k1 k2 : Version -> prog A) :
    (forall a, forwards c1 c2 (k1 a) (k2 a)) ->
    forwards c1 c2 (Call _gmshVersion k1) (Call _gmshVersion k2)
| forwards_Gmsh2D_init (script : string) (k : Gmsh -> prog A) :
    (forall g, exists o, k g = Ret o) ->
    forwards c1 c2 (Call (Gmsh2D_init script c1) k)
      (Call (Gmsh2D_init script c2) k).

(** A float that has a value: a zero or a finite number, neither NaN nor an
    infinity. *)
Definition finite (x : Py.float) : bool :=
  match x with
  | S754_zero _ | S754_finite _ _ _ => true
  | _ => false
  end.

(** A float strictly above zero.  Zeros of either sign and NaN are not. *)
Definition above_zero (x : Py.float) : bool :=
  match x with
  | S754_finite false _ _ | S754_infinity false => true
  | _ => false
  end.

(** The calls a run makes, in the order it makes them: it stops at the call
    that raises. *)
Fixpoint calls {E : Environment} {W A : Type} (h : handler W) (p : prog A)
    (w : W) : list call :=
  match p with
  | Call c k =>
      c :: match h c w with
           | (inl _, _) => []
           | (inr a, w') => calls h (k a) w'
           end
  | _ => []
  end.

(** ** The doctest of the class *)

(** The arguments of the doctest, lines 73 to 78. *)
Module Doctest.

Definition cellSize : Py.float := Py.lit 0.1.
Definition desiredDomainWidth : Py.float := Py.lit 1.
Definition desiredDomainHeight : Py.float := Py.lit 5.
Definition desiredFineRegionHeight : Py.float := Py.lit 1.
Definition transitionRegionHeight : Py.float := Py.lit 2.

(** The locals that the sizing arithmetic binds at these arguments. *)
Definition dims : dimensions :=
  {| nx := 10;
     ny := 10;
     actualFineRegionHeight := Py.lit 1;
     actualDomainWidth := Py.lit 1;
     boundaryLayerHeight := Py.lit 2;
     numberOfBoundaryLayerCells := 2 |}.

(** [major.minor] read off a version string. *)
Fixpoint parse_version (s : string) (major : option Z) (cur : Z) : Z * Z :=
  match s with
  | EmptyString =>
      match major with
      | Some m => (m, cur)
      | None => (cur, 0)
      end
  | String c s' =>
      if Ascii.eqb c "." then parse_version s' (Some cur) 0
      else parse_version s' major (10 * cur + (Z.of_N (N_of_ascii c) - 48))
  end.

(** A stand-in for the mesh library and the runtime, to run the constructor
    on: communicators are their names, a mesh is the arguments it was built
    from, versions are pairs under the lexicographic order, and [%g] shows
    the kind of number only. *)
Definition env : Environment :=
  {| Comm := string;
     Grid := Z * Z * string;
     Gmsh := string * string;
     Version := Z * Z;
     serialComm := "serialComm";
     parallelComm := "parallelComm";
     StrictVersion := fun s => parse_version s None 0;
     version_lt := fun v w =>
       Z.ltb (fst v) (fst w)
       || (Z.eqb (fst v) (fst w) && Z.ltb (snd v) (snd w));
     format_g := fun x =>
       match x with
       | Int _ => "<int>"
       | Float _ => "<float>"
       end |}.

(** The library with gmsh at version [v]: every call succeeds and is noted
    in the world, a log of the calls made. *)
Definition library (v : Z * Z) : @handler env (list string) :=
  fun c =>
    match c as c0 return list string -> result (@answer env c0) * list string
    with
    | Grid2D nx ny _ _ comm =>
        fun w => (inr (nx, ny, comm), w ++ ["Grid2D"])%list
    | _gmshVersion =>
        fun w => (inr v, w ++ ["_gmshVersion"])%list
    | Gmsh2D_init script comm =>
        fun w => (inr (script, comm), w ++ ["Gmsh2D.__init__"])%list
    end.

(** The library on a machine without gmsh: asking for its version raises. *)
Definition library_without_gmsh : @handler env (list string) :=
  fun c =>
    match c as c0 return list string -> result (@answer env c0) * list string
    with
    | Grid2D nx ny _ _ comm =>
        fun w => (inr (nx, ny, comm), w ++ ["Grid2D"])%list
    | _gmshVersion =>
        fun w => (inl (LibraryError "gmsh not found"), w ++ ["_gmshVersion"])%list
    | Gmsh2D_init script comm =>
        fun w => (inr (script, comm), w ++ ["Gmsh2D.__init__"])%list
    end.

(** The library on a single process: [Gmsh2D.__init__] takes any
    communicator for the serial one. *)
Definition library_on_one_process : @handler env (list string) :=
  fun c =>
    match c as c0 return list string -> result (@answer env c0) * list string
    with
    | Grid2D nx ny _ _ comm =>
        fun w => (inr (nx, ny, comm), w ++ ["Grid2D"])%list
    | _gmshVersion =>
        fun w => (inr (2, 7), w ++ ["_gmshVersion"])%list
    | Gmsh2D_init script _ =>
        fun w => (inr (script, "serialComm"), w ++ ["Gmsh2D.__init__"])%list
    end.

(** The calls of a constructor that goes through. *)
Definition log : list string := ["Grid2D"; "_gmshVersion"; "Gmsh2D.__init__"].

(** The object the constructor builds at the doctest arguments, for an
    offset [eps] and a communicator [comm]. *)
Definition built (eps : Py.float) (comm : string) : @GapFillMesh env :=
  @Build_GapFillMesh env (10, 10, "serialComm")
    (script_text (E := env) cellSize transitionRegionHeight dims eps, comm).

End Doctest.

(** ** A negative desired width *)

(** The doctest arguments with the desired width below zero, and the locals
    that the sizing arithmetic binds at them. *)
Module NegativeWidth.

Definition desiredDomainWidth : Py.float := Py.lit (-0.25).

Definition dims : dimensions :=
  {| nx := -2;
     ny := 10;
     actualFineRegionHeight := Py.lit 1;
     actualDomainWidth := Py.lit (-0.2);
     boundaryLayerHeight := Py.lit 2;
     numberOfBoundaryLayerCells := -10 |}.

End NegativeWidth.

(** ** A domain lower than its regions *)

(** The doctest arguments with a domain height of 1, below the fine and
    transition regions together. *)
Module LowDomain.

Definition desiredDomainHeight : Py.float := Py.lit 1.

Definition dims : dimensions :=
  {| nx := 10;
     ny := 10;
     actualFineRegionHeight := Py.lit 1;
     actualDomainWidth := Py.lit 1;
     boundaryLayerHeight := Py.lit (-2);
     numberOfBoundaryLayerCells := -2 |}.

End LowDomain.

(** ** A very wide domain *)

(** A width of 1e308 with cells of size 1: the sizing arithmetic goes
    through, and [nx * 10] is beyond the largest float. *)
Module WideDomain.

Definition cellSize : Py.float := Py.lit 1.
Definition desiredDomainWidth : Py.float := Py.lit 1e308.

Definition dims : dimensions :=
  Eval vm_compute in
    match mesh_dimensions cellSize desiredDomainWidth
            Doctest.desiredDomainHeight Doctest.desiredFineRegionHeight
            Doctest.transitionRegionHeight with
    | inr d => d
    | inl _ => Doctest.dims
    end.

End WideDomain.

(** ** A fine region lower than a cell *)

(** The doctest arguments with a fine region height of 0.05, half a cell. *)
Module ThinRegion.

Definition desiredFineRegionHeight : Py.float := Py.lit 0.05.

Definition dims : dimensions :=
  {| nx := 10;
     ny := 0;
     actualFineRegionHeight := Py.zero;
     actualDomainWidth := Py.lit 1;
     boundaryLayerHeight := Py.lit 3;
     numberOfBoundaryLayerCells := 3 |}.

End ThinRegion.

(** ** Facts about Python numbers *)

Lemma cond_Zopp_mul (s : bool) (a b : Z) :
  cond_Zopp s (a * b) = cond_Zopp s a * b.
Proof. destruct s; simpl; ring. Qed.

Lemma Qtrunc_inject_Z (z : Z) : Qtrunc (inject_Z z) = z.
Proof. unfold Qtrunc; simpl. apply Z.quot_1_r. Qed.

Lemma Qtrunc_dyadic (s : bool) (m k : positive) :
  Qtrunc (cond_Zopp s (Zpos m) # 2 ^ k) =
  cond_Zopp s (Z.shiftr (Zpos m) (Zpos k)).
Proof.
  unfold Qtrunc; simpl Qnum; simpl Qden.
  rewrite Z.shiftr_div_pow2 by lia.
  rewrite Pos2Z.inj_pow.
  destruct s; cbv [cond_Zopp].
  - rewrite Z.quot_opp_l by (apply Z.pow_nonzero; lia).
    rewrite Z.quot_div_nonneg; [reflexivity | lia | apply Z.pow_pos_nonneg; lia].
  - rewrite Z.quot_div_nonneg; [reflexivity | lia | apply Z.pow_pos_nonneg; lia].
Qed.

(** [int(x)] is the truncation toward zero of the exact value of [x], and is
    defined exactly when [x] has a value. *)
Lemma int_truncation (x : Py.float) : defined (Py.int x) = truncation x.
Proof.
  destruct x as [s | s | | s m e]; try reflexivity.
  unfold truncation, value, Py.int, ret, defined, option_map.
  destruct e as [| p | k].
  - rewrite Qtrunc_inject_Z. f_equal. simpl Z.shiftl. destruct s; simpl; lia.
  - rewrite Qtrunc_inject_Z. f_equal.
    rewrite <- cond_Zopp_mul. f_equal.
    rewrite Z.shiftl_mul_pow2 by lia. reflexivity.
  - rewrite Qtrunc_dyadic. reflexivity.
Qed.

(** ** The derived cell counts *)


(** The doctest arguments give ten by ten fine cells and two boundary layer
    cells. *)
Lemma doctest_dimensions :
  mesh_dimensions Doctest.cellSize Doctest.desiredDomainWidth
    Doctest.desiredDomainHeight Doctest.desiredFineRegionHeight
    Doctest.transitionRegionHeight = inr Doctest.dims.
Proof. vm_compute. reflexivity. Qed.



(** What a successful run of the sizing arithmetic went through. *)
Lemma mesh_dimensions_inv
    (cellSize desiredDomainWidth desiredDomainHeight
     desiredFineRegionHeight transitionRegionHeight : Py.float)
    (d : dimensions) :
  mesh_dimensions cellSize desiredDomainWidth desiredDomainHeight
    desiredFineRegionHeight transitionRegionHeight = inr d ->
  Py.is_zero cellSize = false /\
  Py.int (Py.fdiv desiredDomainWidth cellSize) = inr (nx d) /\
  Py.int (Py.fdiv desiredFineRegionHeight cellSize) = inr (ny d) /\
  Py.int_mul (ny d) cellSize = inr (actualFineRegionHeight d) /\
  Py.int_mul (nx d) cellSize = inr (actualDomainWidth d) /\
  boundaryLayerHeight d =
    Py.fsub (Py.fsub desiredDomainHeight (actualFineRegionHeight d))
      transitionRegionHeight /\
  Py.is_zero (actualDomainWidth d) = false /\
  Py.int (Py.fdiv (boundaryLayerHeight d) (actualDomainWidth d)) =
    inr (numberOfBoundaryLayerCells d).
Proof.
  unfold mesh_dimensions, Py.div.
  destruct (Py.is_zero cellSize); [discriminate |]; cbn [bind ret raise].
  destruct (Py.int (Py.fdiv desiredDomainWidth cellSize)) as [e | n1];
    [discriminate |]; cbn [bind ret raise].
  destruct (Py.int (Py.fdiv desiredFineRegionHeight cellSize)) as [e | n2];
    [discriminate |]; cbn [bind ret raise].
  destruct (Py.int_mul n2 cellSize) as [e | h] eqn:Hh; [discriminate |]; cbn [bind ret raise].
  destruct (Py.int_mul n1 cellSize) as [e | w] eqn:Hw0; [discriminate |]; cbn [bind ret raise].
  destruct (Py.is_zero w) eqn:Hw; [discriminate |]; cbn [bind ret raise].
  destruct (Py.int _) as [e | n3] eqn:Hn3; [discriminate |]; cbn [bind ret raise].
  intros H; injection H as <-; cbn.
  repeat split; first [reflexivity | assumption].
Qed.

(** *** Signs *)

(** Rounding keeps the sign it is given. *)
Lemma binary_round_aux_signed (s : bool) (m e : Z) (l : location) :
  signed s (binary_round_aux prec emax s m e l).
Proof.
  unfold binary_round_aux.
  destruct (shr_fexp prec emax m e l) as [mrs' e'].
  destruct (shr_fexp prec emax _ e' loc_Exact) as [mrs'' e''].
  destruct (shr_m mrs''); [| destruct (Z.leb _ _) |]; simpl; auto.
Qed.

Lemma signed_not_negative (x : Py.float) : signed false x -> negative x = false.
Proof. destruct x as [s | s | | s m e]; simpl; intros; subst; reflexivity. Qed.

Lemma fdiv_not_negative (x y : Py.float) :
  negative x = false -> negative y = false -> Py.is_zero y = false ->
  negative (Py.fdiv x y) = false.
Proof.
  destruct x as [sx | sx | | sx mx ex], y as [sy | sy | | sy my ey];
    simpl; intros Hx Hy Hz; try discriminate; try reflexivity;
    try (destruct sx, sy; (discriminate || reflexivity)).
  destruct sx, sy; try discriminate.
  unfold Py.fdiv, SFdiv.
  destruct (SFdiv_core_binary prec emax (Zpos mx) ex (Zpos my) ey)
    as [[mz ez] lz].
  apply signed_not_negative, binary_round_aux_signed.
Qed.

Lemma fmul_not_negative (x y : Py.float) :
  negative x = false -> negative y = false ->
  negative (Py.fmul x y) = false.
Proof.
  destruct x as [sx | sx | | sx mx ex], y as [sy | sy | | sy my ey];
    simpl; intros Hx Hy; try discriminate; try reflexivity;
    try (destruct sx, sy; (discriminate || reflexivity)).
  destruct sx, sy; try discriminate.
  apply signed_not_negative, binary_round_aux_signed.
Qed.

Lemma float_of_int_not_negative (n : Z) (x : Py.float) :
  0 <= n -> Py.float_of_int n = inr x -> negative x = false.
Proof.
  intros Hn. unfold Py.float_of_int, binary_normalize.
  destruct n as [| m | m]; [| | lia].
  - intros H; injection H as <-; reflexivity.
  - unfold binary_round.
    destruct (shl_align m 0 _) as [mz ez].
    pose proof (binary_round_aux_signed false (Zpos mz) ez loc_Exact) as Hs.
    destruct (binary_round_aux prec emax false (Zpos mz) ez loc_Exact)
      as [s | s | | s m' e'] eqn:Hr; intros H;
      try discriminate; injection H as <-;
      apply signed_not_negative; assumption.
Qed.

Lemma int_mul_not_negative (n : Z) (x y : Py.float) :
  0 <= n -> negative x = false -> Py.int_mul n x = inr y ->
  negative y = false.
Proof.
  intros Hn Hx. unfold Py.int_mul.
  destruct (Py.float_of_int n) as [e | fn] eqn:Hfn; [discriminate |].
  cbn [bind ret]. intros H; injection H as <-.
  apply fmul_not_negative; [| assumption].
  eapply float_of_int_not_negative; eassumption.
Qed.

Lemma int_not_negative (x : Py.float) (n : Z) :
  negative x = false -> Py.int x = inr n -> 0 <= n.
Proof.
  destruct x as [s | s | | s m e]; simpl; try discriminate.
  - intros _ H; injection H as <-; lia.
  - destruct s; [discriminate |]. intros _ H; injection H as <-.
    cbv [cond_Zopp]. apply Z.shiftl_nonneg. lia.
Qed.

Lemma gt_zero_not_negative (x : Py.float) :
  Py.gt x Py.zero = true -> negative x = false.
Proof. destruct x as [[] | [] | | [] m e]; cbv; congruence. Qed.

Lemma ge_zero_not_negative (x : Py.float) :
  Py.ge x Py.zero = true -> negative x = false.
Proof. destruct x as [[] | [] | | [] m e]; cbv; congruence. Qed.

(** A constructor that got through the arithmetic has a non-zero [nx]:
    with [nx = 0] the width [nx * cellSize] is zero or NaN. *)
Lemma nx_not_zero
    (cellSize desiredDomainWidth desiredDomainHeight
     desiredFineRegionHeight transitionRegionHeight : Py.float)
    (d : dimensions) :
  mesh_dimensions cellSize desiredDomainWidth desiredDomainHeight
    desiredFineRegionHeight transitionRegionHeight = inr d ->
  nx d <> 0.
Proof.
  intros H. apply mesh_dimensions_inv in H.
  destruct H as (_ & _ & _ & _ & Hw & _ & Hz & Hn). intros H0.
  rewrite H0 in Hw. unfold Py.int_mul in Hw. cbn in Hw.
  destruct cellSize as [s | s | | s m e]; cbn in Hw;
    injection Hw as Hw; rewrite <- Hw in Hz, Hn; cbn in Hz; try discriminate.
  - destruct (boundaryLayerHeight d); discriminate.
  - destruct (boundaryLayerHeight d); discriminate.
Qed.

Lemma nx_not_zero_doctest : nx Doctest.dims = 10 /\ nx Doctest.dims <> 0.
Proof.
  split; [reflexivity |].
  exact (nx_not_zero Doctest.cellSize Doctest.desiredDomainWidth
           Doctest.desiredDomainHeight Doctest.desiredFineRegionHeight
           Doctest.transitionRegionHeight Doctest.dims doctest_dimensions).
Defined.

(** A domain narrower than one cell: [nx] is zero, and so is the width the
    boundary layer height is divided by. *)
Lemma narrow_domain_raises :
  mesh_dimensions (Py.lit 2) (Py.lit 1) (Py.lit 5) (Py.lit 1) (Py.lit 2) =
  inl ZeroDivisionError.
Proof. vm_compute. reflexivity. Qed.

(** C2 (amended). With positive arguments, a constructor that derives its
    counts derives a non-negative [nx] and [ny], and a non-negative
    [numberOfBoundaryLayerCells] as soon as the boundary layer height
    [desiredDomainHeight - ny*cellSize - transitionRegionHeight] is not below
    zero. *)
Theorem cell_counts_not_negative
    (cellSize desiredDomainWidth desiredDomainHeight
     desiredFineRegionHeight transitionRegionHeight : Py.float)
    (d : dimensions) :
  Py.gt cellSize Py.zero = true ->
  Py.gt desiredDomainWidth Py.zero = true ->
  Py.gt desiredDomainHeight Py.zero = true ->
  Py.gt desiredFineRegionHeight Py.zero = true ->
  Py.gt transitionRegionHeight Py.zero = true ->
  mesh_dimensions cellSize desiredDomainWidth desiredDomainHeight
    desiredFineRegionHeight transitionRegionHeight = inr d ->
  0 <= nx d /\
  0 <= ny d /\
  (Py.ge (boundaryLayerHeight d) Py.zero = true ->
   0 <= numberOfBoundaryLayerCells d).
Proof.
  intros Hc Hw _ Hf _ H. apply mesh_dimensions_inv in H.
  destruct H as (Hz & Hnx & Hny & _ & Hadw & _ & Hzw & Hn).
  apply gt_zero_not_negative in Hc, Hw, Hf.
  assert (Hx : 0 <= nx d).
  { eapply int_not_negative; [| exact Hnx].
    apply fdiv_not_negative; assumption. }
  split; [exact Hx |]. split.
  - eapply int_not_negative; [| exact Hny].
    apply fdiv_not_negative; assumption.
  - intros Hb. apply ge_zero_not_negative in Hb.
    eapply int_not_negative; [| exact Hn].
    apply fdiv_not_negative; [assumption | | assumption].
    eapply int_mul_not_negative; [exact Hx | exact Hc | exact Hadw].
Qed.

Lemma cell_counts_not_negative_doctest :
  0 <= nx Doctest.dims /\
  0 <= ny Doctest.dims /\
  (Py.ge (boundaryLayerHeight Doctest.dims) Py.zero = true ->
   0 <= numberOfBoundaryLayerCells Doctest.dims).
Proof.
  exact (cell_counts_not_negative Doctest.cellSize Doctest.desiredDomainWidth
           Doctest.desiredDomainHeight Doctest.desiredFineRegionHeight
           Doctest.transitionRegionHeight Doctest.dims
           eq_refl eq_refl eq_refl eq_refl eq_refl doctest_dimensions).
Defined.

(** A domain lower than its fine and transition regions together: every
    argument is positive and the number of boundary layer cells is -2. *)
Lemma negative_boundary_layer_count :
  Py.gt (Py.lit 0.1) Py.zero = true /\
  Py.gt (Py.lit 1) Py.zero = true /\
  Py.gt (Py.lit 2) Py.zero = true /\
  option_map counts
    (defined (mesh_dimensions (Py.lit 0.1) (Py.lit 1) (Py.lit 1) (Py.lit 1)
                (Py.lit 2))) = Some (10, 10, -2).
Proof. vm_compute. repeat split; reflexivity. Qed.

(** ** Actual and desired dimensions *)

Lemma Qtrunc_floor (q : Q) : 0 <= Qnum q -> Qtrunc q = Qfloor q.
Proof.
  destruct q as [n p]; unfold Qtrunc, Qfloor; simpl. intros Hn.
  apply Z.quot_div_nonneg; lia.
Qed.

Lemma value_not_negative (x : Py.float) (v : Q) :
  negative x = false -> value x = Some v -> 0 <= Qnum v.
Proof.
  destruct x as [s | s | | s m e]; unfold value; try discriminate.
  - intros _ H; injection H as <-. cbn. lia.
  - intros Hs. destruct s; [discriminate |].
    destruct e as [| p | k]; intros H; injection H as <-;
      [cbn; lia | | cbn; lia].
    change (0 <= Z.pos m * 2 ^ Z.pos p).
    apply Z.mul_nonneg_nonneg; [lia | apply Z.pow_nonneg; lia].
Qed.

(** On a float that is not negative, [int] rounds down. *)
Lemma int_floor (x : Py.float) (n : Z) :
  negative x = false -> Py.int x = inr n ->
  exists v : Q,
    value x = Some v /\ (inject_Z n <= v)%Q /\ (v < inject_Z (n + 1))%Q.
Proof.
  intros Hx Hn.
  pose proof (int_truncation x) as Ht. rewrite Hn in Ht. cbn in Ht.
  unfold truncation in Ht.
  destruct (value x) as [v |] eqn:Hv; [| discriminate].
  cbn in Ht. injection Ht as Ht.
  rewrite Qtrunc_floor in Ht by (eapply value_not_negative; eassumption).
  exists v. subst n. split; [reflexivity |]. split.
  - apply Qfloor_le.
  - apply Qlt_floor.
Qed.





(** A negative desired width: truncation goes toward zero, and the actual
    width -0.2 is above the desired -0.25. *)
Lemma truncation_toward_zero_exceeds_negative_width :
  option_map
    (fun d => (nx d, actualDomainWidth d,
               Py.gt (actualDomainWidth d) (Py.lit (-0.25))))
    (defined (mesh_dimensions (Py.lit 0.1) (Py.lit (-0.25)) (Py.lit 5)
                (Py.lit 1) (Py.lit 2))) =
  Some (-2, Py.lit (-0.2), true).
Proof. vm_compute. reflexivity. Qed.

(** A fine region height of 2.1 with cells of 0.3: the computed quotient
    7.000000000000001 is no integer, and seven cells are 2.1 high all the
    same. *)
Lemma equal_height_without_integral_quotient :
  option_map
    (fun d => (ny d, actualFineRegionHeight d))
    (defined (mesh_dimensions (Py.lit 0.3) (Py.lit 1) (Py.lit 5)
                (Py.lit 2.1) (Py.lit 2))) =
  Some (7, Py.lit 2.1) /\
  Py.int (Py.fdiv (Py.lit 2.1) (Py.lit 0.3)) = inr 7 /\
  Py.fdiv (Py.lit 2.1) (Py.lit 0.3) = Py.lit 7.000000000000001.
Proof. vm_compute. repeat split; reflexivity. Qed.

(** ** The constructor, call by call *)

(** One step of a program: the binds of the constructor reduced up to the
    next call. *)
Ltac step := cbn [lift pbind perform run].

Section ConstructorFacts.

Context {E : Environment}.

(** Formatting the template with the locals never fails, and gives the
    script with the numbers in place. *)
Lemma format_geometry_template
    (cellSize desiredDomainWidth desiredDomainHeight
     desiredFineRegionHeight transitionRegionHeight : Py.float)
    (d : dimensions) (eps : Py.float) :
  py_mod format_g geometry_template
    (locals cellSize desiredDomainWidth desiredDomainHeight
       desiredFineRegionHeight transitionRegionHeight d eps) =
  inr (script_text cellSize transitionRegionHeight d eps).
Proof. reflexivity. Qed.

(** The offset follows the version of gmsh. *)
Lemma offset_by_version (cellSize : Py.float) (n : Z) (v : Version) :
  offset cellSize n v =
  if version_lt v (StrictVersion "2.7") then Py.div_int cellSize (n * 10)
  else inr Py.zero.
Proof. reflexivity. Qed.

Lemma append_assoc (s1 s2 s3 : string) :
  ((s1 ++ s2) ++ s3 = s1 ++ (s2 ++ s3))%string.
Proof. induction s1 as [| c s1 IH]; cbn; [reflexivity | now rewrite IH]. Qed.

(** The script sets the cell size to [cellSize - eps], as rendered. *)
Lemma cell_size_line_in_script
    (cellSize transitionRegionHeight : Py.float) (d : dimensions)
    (eps : Py.float) :
  occurs (cell_size_line cellSize eps)
    (script_text cellSize transitionRegionHeight d eps).
Proof.
  exists (script_before_cell_size d),
         (script_after_cell_size transitionRegionHeight d).
  unfold script_text, script_before_cell_size, cell_size_line,
    script_after_cell_size.
  repeat rewrite append_assoc. reflexivity.
Qed.

Section Run.

Context {W : Type}.
Variable h : handler W.

(** A run of the constructor, unfolded. *)
Lemma run_init (w : W)
    (cellSize desiredDomainWidth desiredDomainHeight
     desiredFineRegionHeight transitionRegionHeight : Py.float)
    (communicator : Comm) :
  run h (__init__ cellSize desiredDomainWidth desiredDomainHeight
           desiredFineRegionHeight transitionRegionHeight communicator) w =
  outcome h w cellSize desiredDomainWidth desiredDomainHeight
    desiredFineRegionHeight transitionRegionHeight communicator.
Proof.
  unfold __init__, outcome.
  destruct (mesh_dimensions _ _ _ _ _) as [e | d]; [reflexivity |].
  step.
  destruct (h (Grid2D _ _ _ _ _) w) as [[e | fine] w1]; [reflexivity |].
  step.
  destruct (h _gmshVersion w1) as [[e | v] w2]; [reflexivity |].
  step.
  destruct (offset cellSize (nx d) v) as [e | eps]; [reflexivity |].
  step.
  rewrite format_geometry_template.
  step. unfold finish.
  destruct (h (Gmsh2D_init _ _) w2) as [[e | g] w3]; reflexivity.
Qed.

(** C4. Whatever step of the constructor raises (the arithmetic, as with a
    zero cell size, or a call into the library), the run of the constructor
    ends with that very exception, in the world the failing step left, and
    with no object. *)
Theorem exceptions_propagate (w w' : W)
    (cellSize desiredDomainWidth desiredDomainHeight
     desiredFineRegionHeight transitionRegionHeight : Py.float)
    (communicator : Comm) (e : exn) :
  fails h w cellSize desiredDomainWidth desiredDomainHeight
    desiredFineRegionHeight transitionRegionHeight communicator e w' ->
  run h (__init__ cellSize desiredDomainWidth desiredDomainHeight
           desiredFineRegionHeight transitionRegionHeight communicator) w =
  (inl e, w').
Proof.
  intros F. rewrite run_init. unfold outcome.
  destruct F as [e Hd | d e w1 Hd Hg | d fine w1 e w2 Hd Hg Hv
                | d fine w1 v w2 e Hd Hg Hv Ho
                | d fine w1 v w2 eps e Hd Hg Hv Ho Hf
                | d fine w1 v w2 eps script e w3 Hd Hg Hv Ho Hf Hs];
    rewrite Hd; try rewrite Hg; try rewrite Hv; try rewrite Ho;
    try reflexivity.
  - rewrite format_geometry_template in Hf. discriminate.
  - rewrite format_geometry_template in Hf. injection Hf as <-.
    unfold finish. rewrite Hs. reflexivity.
Qed.

(** Conversely the constructor raises nothing of its own: an exception that
    comes out of it was raised by one of its steps. *)
Lemma exceptions_come_from_steps (w w' : W)
    (cellSize desiredDomainWidth desiredDomainHeight
     desiredFineRegionHeight transitionRegionHeight : Py.float)
    (communicator : Comm) (e : exn) :
  run h (__init__ cellSize desiredDomainWidth desiredDomainHeight
           desiredFineRegionHeight transitionRegionHeight communicator) w =
  (inl e, w') ->
  fails h w cellSize desiredDomainWidth desiredDomainHeight
    desiredFineRegionHeight transitionRegionHeight communicator e w'.
Proof.
  rewrite run_init. unfold outcome.
  destruct (mesh_dimensions _ _ _ _ _) as [e0 | d] eqn:Hd.
  { intros H; injection H as <- <-. apply fails_arithmetic. exact Hd. }
  destruct (h (Grid2D _ _ _ _ _) w) as [[e0 | fine] w1] eqn:Hg.
  { intros H; injection H as <- <-. eapply fails_Grid2D; eassumption. }
  destruct (h _gmshVersion w1) as [[e0 | v] w2] eqn:Hv.
  { intros H; injection H as <- <-. eapply fails_gmshVersion; eassumption. }
  destruct (offset cellSize (nx d) v) as [e0 | eps] eqn:Ho.
  { intros H; injection H as <- <-. eapply fails_offset; eassumption. }
  unfold finish.
  destruct (h (Gmsh2D_init _ _) w2) as [[e0 | g] w3] eqn:Hs; [| discriminate].
  intros H; injection H as <- <-.
  eapply fails_Gmsh2D; try eassumption. apply format_geometry_template.
Qed.

(** A zero cell size stops the constructor at its first division. *)
Lemma zero_cell_size_raises
    (cellSize desiredDomainWidth desiredDomainHeight
     desiredFineRegionHeight transitionRegionHeight : Py.float) :
  Py.is_zero cellSize = true ->
  mesh_dimensions cellSize desiredDomainWidth desiredDomainHeight
    desiredFineRegionHeight transitionRegionHeight = inl ZeroDivisionError.
Proof. intros Hz. unfold mesh_dimensions, Py.div. rewrite Hz. reflexivity. Qed.

(** The first call of the constructor, if the arithmetic lets it make one,
    builds the fine mesh, on the serial communicator. *)
Lemma first_call_init
    (cellSize desiredDomainWidth desiredDomainHeight
     desiredFineRegionHeight transitionRegionHeight : Py.float)
    (communicator : Comm) :
  first_call (__init__ cellSize desiredDomainWidth desiredDomainHeight
                desiredFineRegionHeight transitionRegionHeight communicator) =
  option_map (fun d => Grid2D (nx d) (ny d) cellSize cellSize serialComm)
    (defined (mesh_dimensions cellSize desiredDomainWidth desiredDomainHeight
                desiredFineRegionHeight transitionRegionHeight)).
Proof.
  unfold __init__. destruct (mesh_dimensions _ _ _ _ _) as [e | d]; reflexivity.
Qed.

(** The fine mesh of a constructed object is the answer of [Grid2D]. *)
Lemma fine_mesh_of_run (w w' : W)
    (cellSize desiredDomainWidth desiredDomainHeight
     desiredFineRegionHeight transitionRegionHeight : Py.float)
    (communicator : Comm) (o : GapFillMesh) :
  run h (__init__ cellSize desiredDomainWidth desiredDomainHeight
           desiredFineRegionHeight transitionRegionHeight communicator) w =
  (inr o, w') ->
  exists (d : dimensions) (w1 : W),
    mesh_dimensions cellSize desiredDomainWidth desiredDomainHeight
      desiredFineRegionHeight transitionRegionHeight = inr d /\
    h (Grid2D (nx d) (ny d) cellSize cellSize serialComm) w =
      (inr (fineMesh o), w1).
Proof.
  rewrite run_init. unfold outcome.
  destruct (mesh_dimensions _ _ _ _ _) as [e | d]; [discriminate |].
  destruct (h (Grid2D _ _ _ _ _) w) as [[e | fine] w1] eqn:Hg;
    [discriminate |].
  destruct (h _gmshVersion w1) as [[e | v] w2]; [discriminate |].
  destruct (offset cellSize (nx d) v) as [e | eps]; [discriminate |].
  unfold finish.
  destruct (h (Gmsh2D_init _ _) w2) as [[e | g] w3]; [discriminate |].
  intros H; injection H as <- <-. exists d, w1. split; [reflexivity | exact Hg].
Qed.

(** C8. Two calls of the constructor that differ in the communicator only
    build the fine mesh alike: the first call of either is
    [Grid2D(nx, ny, cellSize, cellSize, serialComm)], and the [fineMesh] of
    the two objects is one and the same answer of the library to it. *)
Theorem fine_mesh_ignores_communicator (w w1 w2 : W)
    (cellSize desiredDomainWidth desiredDomainHeight
     desiredFineRegionHeight transitionRegionHeight : Py.float)
    (c1 c2 : Comm) (o1 o2 : GapFillMesh) :
  run h (__init__ cellSize desiredDomainWidth desiredDomainHeight
           desiredFineRegionHeight transitionRegionHeight c1) w =
  (inr o1, w1) ->
  run h (__init__ cellSize desiredDomainWidth desiredDomainHeight
           desiredFineRegionHeight transitionRegionHeight c2) w =
  (inr o2, w2) ->
  exists (d : dimensions) (w' : W),
    mesh_dimensions cellSize desiredDomainWidth desiredDomainHeight
      desiredFineRegionHeight transitionRegionHeight = inr d /\
    first_call (__init__ cellSize desiredDomainWidth desiredDomainHeight
                  desiredFineRegionHeight transitionRegionHeight c1) =
      Some (Grid2D (nx d) (ny d) cellSize cellSize serialComm) /\
    first_call (__init__ cellSize desiredDomainWidth desiredDomainHeight
                  desiredFineRegionHeight transitionRegionHeight c2) =
      Some (Grid2D (nx d) (ny d) cellSize cellSize serialComm) /\
    h (Grid2D (nx d) (ny d) cellSize cellSize serialComm) w =
      (inr (fineMesh o1), w') /\
    fineMesh o2 = fineMesh o1.
Proof.
  intros H1 H2.
  apply fine_mesh_of_run in H1. destruct H1 as (d & w' & Hd & Hg).
  apply fine_mesh_of_run in H2. destruct H2 as (d' & w'' & Hd' & Hg').
  rewrite Hd in Hd'. injection Hd' as <-.
  rewrite Hg in Hg'. injection Hg' as Hf _.
  exists d, w'. rewrite !first_call_init, Hd. cbn.
  repeat split; [exact Hg | symmetry; exact Hf].
Qed.

(** C10. Once the fine mesh is built and gmsh has told its version [v], the
    script that goes to [Gmsh2D.__init__] sets the cell size to
    [cellSize - eps]: with [v] below 2.7, [eps] is [cellSize / (nx * 10)]
    (and the constructor raises if that cannot be computed), otherwise
    [eps] is zero. *)
Theorem script_cell_size_by_gmsh_version (w w1 w2 : W)
    (cellSize desiredDomainWidth desiredDomainHeight
     desiredFineRegionHeight transitionRegionHeight : Py.float)
    (communicator : Comm) (d : dimensions) (fine : Grid) (v : Version) :
  mesh_dimensions cellSize desiredDomainWidth desiredDomainHeight
    desiredFineRegionHeight transitionRegionHeight = inr d ->
  h (Grid2D (nx d) (ny d) cellSize cellSize serialComm) w = (inr fine, w1) ->
  h _gmshVersion w1 = (inr v, w2) ->
  run h (__init__ cellSize desiredDomainWidth desiredDomainHeight
           desiredFineRegionHeight transitionRegionHeight communicator) w =
  (if version_lt v (StrictVersion "2.7") then
     match Py.div_int cellSize (nx d * 10) with
     | inl e => (inl e, w2)
     | inr eps =>
         finish h w2 fine
           (script_text cellSize transitionRegionHeight d eps) communicator
     end
   else
     finish h w2 fine
       (script_text cellSize transitionRegionHeight d Py.zero) communicator)
  /\
  forall eps : Py.float,
    occurs (cell_size_line cellSize eps)
      (script_text cellSize transitionRegionHeight d eps).
Proof.
  intros Hd Hg Hv. split; [| intros eps; apply cell_size_line_in_script].
  rewrite run_init. unfold outcome. rewrite Hd, Hg, Hv, offset_by_version.
  destruct (version_lt v (StrictVersion "2.7")); reflexivity.
Qed.

End Run.


(** What the relation is worth: against a library that answers
    [Gmsh2D.__init__] alike for the two communicators, two related programs
    run to the same result. *)
Lemma forwards_run {W A : Type} (h : handler W) (c1 c2 : Comm)
    (p1 p2 : prog A) :
  (forall script w,
      h (Gmsh2D_init script c1) w = h (Gmsh2D_init script c2) w) ->
  forwards c1 c2 p1 p2 ->
  forall w : W, run h p1 w = run h p2 w.
Proof.
  intros Hh F.
  induction F as [e | n m dx dy c k1 k2 _ IH | k1 k2 _ IH | script k _];
    intros w; cbn [run].
  - reflexivity.
  - destruct (h (Grid2D n m dx dy c) w) as [[e | a] w1];
      [reflexivity | apply IH].
  - destruct (h _gmshVersion w) as [[e | a] w1]; [reflexivity | apply IH].
  - rewrite (Hh script w). reflexivity.
Qed.

End ConstructorFacts.

(** ** The constructor at the doctest arguments *)

Lemma exceptions_propagate_zero_cell_size :
  run (Doctest.library (2, 7))
    (__init__ (E := Doctest.env) Py.zero Doctest.desiredDomainWidth
       Doctest.desiredDomainHeight Doctest.desiredFineRegionHeight
       Doctest.transitionRegionHeight "parallelComm") [] =
  (inl ZeroDivisionError, []).
Proof.
  apply exceptions_propagate. apply fails_arithmetic. reflexivity.
Defined.

(** Without gmsh the constructor ends with the exception of
    [_gmshVersion], after the fine mesh was built. *)
Lemma constructor_without_gmsh :
  run Doctest.library_without_gmsh
    (__init__ (E := Doctest.env) Doctest.cellSize Doctest.desiredDomainWidth
       Doctest.desiredDomainHeight Doctest.desiredFineRegionHeight
       Doctest.transitionRegionHeight "parallelComm") [] =
  (inl (LibraryError "gmsh not found"), ["Grid2D"; "_gmshVersion"]).
Proof. vm_compute. reflexivity. Qed.

Lemma exceptions_come_from_steps_without_gmsh :
  fails Doctest.library_without_gmsh [] Doctest.cellSize
    Doctest.desiredDomainWidth Doctest.desiredDomainHeight
    Doctest.desiredFineRegionHeight Doctest.transitionRegionHeight
    "parallelComm" (LibraryError "gmsh not found")
    ["Grid2D"; "_gmshVersion"].
Proof.
  exact (exceptions_come_from_steps (E := Doctest.env)
           Doctest.library_without_gmsh [] ["Grid2D"; "_gmshVersion"]
           Doctest.cellSize Doctest.desiredDomainWidth
           Doctest.desiredDomainHeight Doctest.desiredFineRegionHeight
           Doctest.transitionRegionHeight "parallelComm"
           (LibraryError "gmsh not found") eq_refl).
Defined.

Lemma fine_mesh_ignores_communicator_doctest :
  exists (d : dimensions) (w' : list string),
    mesh_dimensions Doctest.cellSize Doctest.desiredDomainWidth
      Doctest.desiredDomainHeight Doctest.desiredFineRegionHeight
      Doctest.transitionRegionHeight = inr d /\
    first_call
      (__init__ (E := Doctest.env) Doctest.cellSize
         Doctest.desiredDomainWidth Doctest.desiredDomainHeight
         Doctest.desiredFineRegionHeight Doctest.transitionRegionHeight
         "serialComm") =
      Some (@Grid2D Doctest.env (nx d) (ny d) Doctest.cellSize
              Doctest.cellSize "serialComm") /\
    first_call
      (__init__ (E := Doctest.env) Doctest.cellSize
         Doctest.desiredDomainWidth Doctest.desiredDomainHeight
         Doctest.desiredFineRegionHeight Doctest.transitionRegionHeight
         "parallelComm") =
      Some (@Grid2D Doctest.env (nx d) (ny d) Doctest.cellSize
              Doctest.cellSize "serialComm") /\
    Doctest.library (2, 7)
      (@Grid2D Doctest.env (nx d) (ny d) Doctest.cellSize Doctest.cellSize
         "serialComm") [] =
      (inr (fineMesh (Doctest.built Py.zero "serialComm")), w') /\
    fineMesh (Doctest.built Py.zero "parallelComm") =
    fineMesh (Doctest.built Py.zero "serialComm").
Proof.
  exact (fine_mesh_ignores_communicator (E := Doctest.env)
           (Doctest.library (2, 7)) [] Doctest.log Doctest.log
           Doctest.cellSize Doctest.desiredDomainWidth
           Doctest.desiredDomainHeight Doctest.desiredFineRegionHeight
           Doctest.transitionRegionHeight "serialComm" "parallelComm"
           (Doctest.built Py.zero "serialComm")
           (Doctest.built Py.zero "parallelComm") eq_refl eq_refl).
Defined.

Lemma script_cell_size_gmsh_2_6 :
  run (Doctest.library (2, 6))
    (__init__ (E := Doctest.env) Doctest.cellSize Doctest.desiredDomainWidth
       Doctest.desiredDomainHeight Doctest.desiredFineRegionHeight
       Doctest.transitionRegionHeight "parallelComm") [] =
  (inr (Doctest.built (Py.lit 0.001) "parallelComm"), Doctest.log) /\
  forall eps : Py.float,
    occurs (cell_size_line (E := Doctest.env) Doctest.cellSize eps)
      (script_text (E := Doctest.env) Doctest.cellSize
         Doctest.transitionRegionHeight Doctest.dims eps).
Proof.
  exact (script_cell_size_by_gmsh_version (E := Doctest.env)
           (Doctest.library (2, 6)) [] ["Grid2D"] ["Grid2D"; "_gmshVersion"]
           Doctest.cellSize Doctest.desiredDomainWidth
           Doctest.desiredDomainHeight Doctest.desiredFineRegionHeight
           Doctest.transitionRegionHeight "parallelComm" Doctest.dims
           (10, 10, "serialComm") (2, 6) doctest_dimensions eq_refl eq_refl).
Defined.

(** With gmsh 2.7 the offset is zero. *)
Lemma script_cell_size_gmsh_2_7 :
  run (Doctest.library (2, 7))
    (__init__ (E := Doctest.env) Doctest.cellSize Doctest.desiredDomainWidth
       Doctest.desiredDomainHeight Doctest.desiredFineRegionHeight
       Doctest.transitionRegionHeight "parallelComm") [] =
  (inr (Doctest.built Py.zero "parallelComm"), Doctest.log).
Proof. vm_compute. reflexivity. Qed.

(** ** Arguments without a value *)

Lemma int_defined_finite (x : Py.float) (n : Z) :
  Py.int x = inr n -> finite x = true.
Proof.
  destruct x as [s | s | | s m e]; unfold Py.int, raise, ret, finite;
    intros H; congruence.
Qed.

Lemma fdiv_finite_inv (x y : Py.float) :
  finite (Py.fdiv x y) = true -> Py.is_zero y = false -> finite x = true.
Proof.
  destruct x as [sx | sx | | sx mx ex], y as [sy | sy | | sy my ey];
    simpl; intros H Hz; first [reflexivity | discriminate].
Qed.

Lemma fsub_finite_inv (x y : Py.float) :
  finite (Py.fsub x y) = true -> finite x = true /\ finite y = true.
Proof.
  destruct x as [[] | [] | | sx mx ex], y as [[] | [] | | sy my ey];
    simpl; intros H; first [split; reflexivity | discriminate].
Qed.

Lemma fmul_finite_inv (x y : Py.float) :
  finite (Py.fmul x y) = true -> finite x = true /\ finite y = true.
Proof.
  destruct x as [sx | sx | | sx mx ex], y as [sy | sy | | sy my ey];
    simpl; intros H; first [split; reflexivity | discriminate].
Qed.

(** The sizing arithmetic gets through on lengths with a value only. *)
Lemma sizing_arguments_finite
    (cellSize desiredDomainWidth desiredDomainHeight
     desiredFineRegionHeight transitionRegionHeight : Py.float)
    (d : dimensions) :
  mesh_dimensions cellSize desiredDomainWidth desiredDomainHeight
    desiredFineRegionHeight transitionRegionHeight = inr d ->
  finite cellSize = true /\
  finite desiredDomainWidth = true /\
  finite desiredDomainHeight = true /\
  finite desiredFineRegionHeight = true /\
  finite transitionRegionHeight = true.
Proof.
  intros H. apply mesh_dimensions_inv in H.
  destruct H as (Hz & Hnx & Hny & Hh & _ & Hb & Hzw & Hn).
  apply int_defined_finite in Hnx, Hny, Hn.
  apply fdiv_finite_inv in Hnx, Hny, Hn; try assumption.
  rewrite Hb in Hn. apply fsub_finite_inv in Hn. destruct Hn as [Hn Ht].
  apply fsub_finite_inv in Hn. destruct Hn as [Hd Hf].
  unfold Py.int_mul in Hh.
  destruct (Py.float_of_int (ny d)) as [e | fn]; [discriminate |].
  cbn [bind ret] in Hh. injection Hh as Hh. rewrite <- Hh in Hf.
  apply fmul_finite_inv in Hf. destruct Hf as [_ Hc].
  repeat split; assumption.
Qed.

(** ** Counts below zero *)

Lemma signed_not_above_zero (x : Py.float) :
  signed true x -> above_zero x = false.
Proof. destruct x as [s | s | | s m e]; simpl; intros; subst; reflexivity. Qed.

Lemma fdiv_not_above_zero (x y : Py.float) :
  above_zero x = false -> negative y = false -> Py.is_zero y = false ->
  above_zero (Py.fdiv x y) = false.
Proof.
  destruct x as [sx | sx | | sx mx ex], y as [sy | sy | | sy my ey];
    simpl; intros Hx Hy Hz; try discriminate; try reflexivity;
    try (destruct sx, sy; (discriminate || reflexivity)).
  destruct sx, sy; try discriminate.
  unfold Py.fdiv, SFdiv.
  destruct (SFdiv_core_binary prec emax (Zpos mx) ex (Zpos my) ey)
    as [[mz ez] lz].
  apply signed_not_above_zero, binary_round_aux_signed.
Qed.

Lemma int_not_above_zero (x : Py.float) (n : Z) :
  above_zero x = false -> Py.int x = inr n -> n <= 0.
Proof.
  destruct x as [s | s | | s m e]; simpl; try discriminate.
  - intros _ H; injection H as <-; lia.
  - destruct s; [| discriminate]. intros _ H; injection H as <-.
    cbv [cond_Zopp].
    pose proof (proj2 (Z.shiftl_nonneg (Zpos m) e)) as Hs. lia.
Qed.

Lemma le_zero_not_above_zero (x : Py.float) :
  Py.ge Py.zero x = true -> above_zero x = false.
Proof. destruct x as [[] | [] | | [] m e]; cbv; congruence. Qed.

Lemma Qtrunc_ceiling (q : Q) : Qnum q <= 0 -> Qtrunc q = Qceiling q.
Proof.
  destruct q as [n p]; unfold Qtrunc, Qceiling, Qfloor; simpl. intros Hn.
  replace n with (- - n) at 1 by lia.
  rewrite Z.quot_opp_l by lia. f_equal.
  apply Z.quot_div_nonneg; lia.
Qed.

Lemma value_not_above_zero (x : Py.float) (v : Q) :
  above_zero x = false -> value x = Some v -> Qnum v <= 0.
Proof.
  destruct x as [s | s | | s m e]; unfold value; try discriminate.
  - intros _ H; injection H as <-. cbn. lia.
  - intros Hs. destruct s; [| discriminate].
    destruct e as [| p | k]; intros H; injection H as <-;
      [cbn; lia | | cbn; lia].
    change (- Z.pos m * 2 ^ Z.pos p <= 0).
    pose proof (Z.pow_nonneg 2 (Z.pos p)). nia.
Qed.

(** On a float that is not above zero, [int] rounds up. *)
Lemma int_ceiling (x : Py.float) (n : Z) :
  above_zero x = false -> Py.int x = inr n ->
  exists v : Q,
    value x = Some v /\ (inject_Z (n - 1) < v)%Q /\ (v <= inject_Z n)%Q.
Proof.
  intros Hx Hn.
  pose proof (int_truncation x) as Ht. rewrite Hn in Ht. cbn in Ht.
  unfold truncation in Ht.
  destruct (value x) as [v |] eqn:Hv; [| discriminate].
  cbn in Ht. injection Ht as Ht.
  rewrite Qtrunc_ceiling in Ht by (eapply value_not_above_zero; eassumption).
  exists v. subst n. split; [reflexivity |]. split.
  - apply Qceiling_lt.
  - apply Qle_ceiling.
Qed.

(** A count of zero leaves no width to divide by. *)
Lemma zero_count_fails (x b w : Py.float) (n : Z) :
  Py.int_mul 0 x = inr w -> Py.is_zero w = false ->
  Py.int (Py.fdiv b w) = inr n -> False.
Proof.
  unfold Py.int_mul. cbn. intros Hw Hz Hn.
  destruct x as [s | s | | s m e]; cbn in Hw; injection Hw as Hw;
    rewrite <- Hw in Hz, Hn; cbn in Hz; try discriminate;
    destruct b; discriminate.
Qed.

Lemma negative_width_dimensions :
  mesh_dimensions Doctest.cellSize NegativeWidth.desiredDomainWidth
    Doctest.desiredDomainHeight Doctest.desiredFineRegionHeight
    Doctest.transitionRegionHeight = inr NegativeWidth.dims.
Proof. vm_compute. reflexivity. Qed.

(** X3. A desired width that is not above zero is not refused: when the
    constructor derives its counts from it, [nx] is at most -1, the computed
    quotient [desiredDomainWidth / cellSize] rounded up, toward zero. *)
Theorem negative_width_rounds_up
    (cellSize desiredDomainWidth desiredDomainHeight
     desiredFineRegionHeight transitionRegionHeight : Py.float)
    (d : dimensions) :
  Py.gt cellSize Py.zero = true ->
  Py.ge Py.zero desiredDomainWidth = true ->
  mesh_dimensions cellSize desiredDomainWidth desiredDomainHeight
    desiredFineRegionHeight transitionRegionHeight = inr d ->
  nx d <= -1 /\
  exists q : Q,
    value (Py.fdiv desiredDomainWidth cellSize) = Some q /\
    (inject_Z (nx d - 1) < q)%Q /\ (q <= inject_Z (nx d))%Q.
Proof.
  intros Hc Hw H. apply mesh_dimensions_inv in H.
  destruct H as (Hz & Hnx & _ & _ & Ha & _ & Hzw & Hn).
  apply gt_zero_not_negative in Hc.
  apply le_zero_not_above_zero in Hw.
  pose proof (fdiv_not_above_zero _ _ Hw Hc Hz) as Hq.
  split.
  - pose proof (int_not_above_zero _ _ Hq Hnx) as Hle.
    destruct (Z.eq_dec (nx d) 0) as [H0 | H0]; [| lia].
    exfalso. rewrite H0 in Ha. eapply zero_count_fails; eassumption.
  - apply int_ceiling; assumption.
Qed.

Lemma negative_width_rounds_up_example :
  nx NegativeWidth.dims <= -1 /\
  exists q : Q,
    value (Py.fdiv NegativeWidth.desiredDomainWidth Doctest.cellSize) =
      Some q /\
    (inject_Z (nx NegativeWidth.dims - 1) < q)%Q /\
    (q <= inject_Z (nx NegativeWidth.dims))%Q.
Proof.
  exact (negative_width_rounds_up Doctest.cellSize
           NegativeWidth.desiredDomainWidth Doctest.desiredDomainHeight
           Doctest.desiredFineRegionHeight Doctest.transitionRegionHeight
           NegativeWidth.dims eq_refl eq_refl negative_width_dimensions).
Defined.

(** X4. With a positive cell size and width, the number of boundary layer
    cells is the computed quotient [boundaryLayerHeight / actualDomainWidth]
    rounded toward zero: down and not below zero when the boundary layer
    height is not below zero, up and not above zero when it is not above
    zero. *)
Theorem boundary_layer_count_rounds_toward_zero
    (cellSize desiredDomainWidth desiredDomainHeight
     desiredFineRegionHeight transitionRegionHeight : Py.float)
    (d : dimensions) :
  Py.gt cellSize Py.zero = true ->
  Py.gt desiredDomainWidth Py.zero = true ->
  mesh_dimensions cellSize desiredDomainWidth desiredDomainHeight
    desiredFineRegionHeight transitionRegionHeight = inr d ->
  exists q : Q,
    value (Py.fdiv (boundaryLayerHeight d) (actualDomainWidth d)) = Some q /\
    (Py.ge (boundaryLayerHeight d) Py.zero = true ->
     0 <= numberOfBoundaryLayerCells d /\
     (inject_Z (numberOfBoundaryLayerCells d) <= q)%Q /\
     (q < inject_Z (numberOfBoundaryLayerCells d + 1))%Q) /\
    (Py.ge Py.zero (boundaryLayerHeight d) = true ->
     numberOfBoundaryLayerCells d <= 0 /\
     (inject_Z (numberOfBoundaryLayerCells d - 1) < q)%Q /\
     (q <= inject_Z (numberOfBoundaryLayerCells d))%Q).
Proof.
  intros Hc Hw H. apply mesh_dimensions_inv in H.
  destruct H as (Hz & Hnx & _ & _ & Ha & _ & Hzw & Hn).
  apply gt_zero_not_negative in Hc, Hw.
  assert (Hx : 0 <= nx d).
  { eapply int_not_negative; [| exact Hnx].
    apply fdiv_not_negative; assumption. }
  pose proof (int_mul_not_negative _ _ _ Hx Hc Ha) as Hadw.
  pose proof (int_truncation
                (Py.fdiv (boundaryLayerHeight d) (actualDomainWidth d)))
    as Ht.
  rewrite Hn in Ht. unfold truncation in Ht.
  destruct (value (Py.fdiv (boundaryLayerHeight d) (actualDomainWidth d)))
    as [q |] eqn:Hq; [| discriminate].
  exists q. split; [reflexivity |]. split.
  - intros Hb. apply ge_zero_not_negative in Hb.
    pose proof (fdiv_not_negative _ _ Hb Hadw Hzw) as Hs.
    split; [eapply int_not_negative; eassumption |].
    destruct (int_floor _ _ Hs Hn) as (v & Hv & H1 & H2).
    rewrite Hq in Hv. injection Hv as <-. split; assumption.
  - intros Hb. apply le_zero_not_above_zero in Hb.
    pose proof (fdiv_not_above_zero _ _ Hb Hadw Hzw) as Hs.
    split; [eapply int_not_above_zero; eassumption |].
    destruct (int_ceiling _ _ Hs Hn) as (v & Hv & H1 & H2).
    rewrite Hq in Hv. injection Hv as <-. split; assumption.
Qed.

Lemma boundary_layer_count_doctest :
  exists q : Q,
    value (Py.fdiv (boundaryLayerHeight Doctest.dims)
             (actualDomainWidth Doctest.dims)) = Some q /\
    (Py.ge (boundaryLayerHeight Doctest.dims) Py.zero = true ->
     0 <= numberOfBoundaryLayerCells Doctest.dims /\
     (inject_Z (numberOfBoundaryLayerCells Doctest.dims) <= q)%Q /\
     (q < inject_Z (numberOfBoundaryLayerCells Doctest.dims + 1))%Q) /\
    (Py.ge Py.zero (boundaryLayerHeight Doctest.dims) = true ->
     numberOfBoundaryLayerCells Doctest.dims <= 0 /\
     (inject_Z (numberOfBoundaryLayerCells Doctest.dims - 1) < q)%Q /\
     (q <= inject_Z (numberOfBoundaryLayerCells Doctest.dims))%Q).
Proof.
  exact (boundary_layer_count_rounds_toward_zero Doctest.cellSize
           Doctest.desiredDomainWidth Doctest.desiredDomainHeight
           Doctest.desiredFineRegionHeight Doctest.transitionRegionHeight
           Doctest.dims eq_refl eq_refl doctest_dimensions).
Defined.

Lemma low_domain_dimensions :
  mesh_dimensions Doctest.cellSize Doctest.desiredDomainWidth
    LowDomain.desiredDomainHeight Doctest.desiredFineRegionHeight
    Doctest.transitionRegionHeight = inr LowDomain.dims.
Proof. vm_compute. reflexivity. Qed.

(** ** More on the constructor *)

Section ConstructorMore.

Context {E : Environment}.

(** X5. With a positive cell size and width the offset [eps] of the cell
    size is never below zero, whatever the version of gmsh. *)
Theorem offset_not_negative
    (cellSize desiredDomainWidth desiredDomainHeight
     desiredFineRegionHeight transitionRegionHeight : Py.float)
    (d : dimensions) (v : Version) (eps : Py.float) :
  Py.gt cellSize Py.zero = true ->
  Py.gt desiredDomainWidth Py.zero = true ->
  mesh_dimensions cellSize desiredDomainWidth desiredDomainHeight
    desiredFineRegionHeight transitionRegionHeight = inr d ->
  offset cellSize (nx d) v = inr eps ->
  negative eps = false.
Proof.
  intros Hc Hw H. apply mesh_dimensions_inv in H.
  destruct H as (Hz & Hnx & _).
  apply gt_zero_not_negative in Hc, Hw.
  assert (Hx : 0 <= nx d).
  { eapply int_not_negative; [| exact Hnx].
    apply fdiv_not_negative; assumption. }
  unfold offset. destruct (version_lt v (StrictVersion "2.7")).
  - unfold Py.div_int, Py.div.
    destruct (Py.float_of_int (nx d * 10)) as [e | fn] eqn:Hfn;
      [discriminate |]. cbn [bind].
    destruct (Py.is_zero fn) eqn:Hfz; [discriminate |].
    intros He; injection He as <-.
    apply fdiv_not_negative; [assumption | | assumption].
    eapply float_of_int_not_negative; [| exact Hfn]. lia.
  - intros He; injection He as <-. reflexivity.
Qed.

(** X6. The fine mesh does not depend on the domain height and the
    transition region height: two argument lists that differ in these only
    and both get through the arithmetic lead to the same call of [Grid2D] and
    the same actual dimensions. *)
Theorem fine_mesh_ignores_heights
    (cellSize desiredDomainWidth desiredFineRegionHeight : Py.float)
    (desiredDomainHeight transitionRegionHeight : Py.float)
    (desiredDomainHeight' transitionRegionHeight' : Py.float)
    (c c' : Comm) (d d' : dimensions) :
  mesh_dimensions cellSize desiredDomainWidth desiredDomainHeight
    desiredFineRegionHeight transitionRegionHeight = inr d ->
  mesh_dimensions cellSize desiredDomainWidth desiredDomainHeight'
    desiredFineRegionHeight transitionRegionHeight' = inr d' ->
  first_call (__init__ cellSize desiredDomainWidth desiredDomainHeight
                desiredFineRegionHeight transitionRegionHeight c) =
  first_call (__init__ cellSize desiredDomainWidth desiredDomainHeight'
                desiredFineRegionHeight transitionRegionHeight' c') /\
  nx d = nx d' /\ ny d = ny d' /\
  actualFineRegionHeight d = actualFineRegionHeight d' /\
  actualDomainWidth d = actualDomainWidth d'.
Proof.
  intros H H'. rewrite !first_call_init, H, H'. cbn [defined option_map].
  apply mesh_dimensions_inv in H, H'.
  destruct H as (_ & Hnx & Hny & Hh & Ha & _).
  destruct H' as (_ & Hnx' & Hny' & Hh' & Ha' & _).
  rewrite Hnx in Hnx'. injection Hnx' as Hx.
  rewrite Hny in Hny'. injection Hny' as Hy.
  rewrite <- Hx in Ha'. rewrite Ha in Ha'. injection Ha' as Hw.
  rewrite <- Hy in Hh'. rewrite Hh in Hh'. injection Hh' as Hf.
  rewrite Hx, Hy. repeat split; assumption.
Qed.

(** X7. With a positive cell size and width and a fine region height that is
    not below zero, the fine mesh is asked for with at least one column and
    no negative number of rows, square cells of the cell size, and the
    serial communicator. *)
Theorem fine_mesh_has_a_column
    (cellSize desiredDomainWidth desiredDomainHeight
     desiredFineRegionHeight transitionRegionHeight : Py.float)
    (communicator : Comm) (c : call) :
  Py.gt cellSize Py.zero = true ->
  Py.gt desiredDomainWidth Py.zero = true ->
  Py.ge desiredFineRegionHeight Py.zero = true ->
  first_call (__init__ cellSize desiredDomainWidth desiredDomainHeight
                desiredFineRegionHeight transitionRegionHeight communicator) =
  Some c ->
  exists n m : Z,
    c = Grid2D n m cellSize cellSize serialComm /\ 1 <= n /\ 0 <= m.
Proof.
  intros Hc Hw Hf. rewrite first_call_init.
  destruct (mesh_dimensions _ _ _ _ _) as [e | d] eqn:H; [discriminate |].
  cbn [defined option_map]. intros Hcall; injection Hcall as <-.
  apply mesh_dimensions_inv in H.
  destruct H as (Hz & Hnx & Hny & _ & Ha & _ & Hzw & Hn).
  apply gt_zero_not_negative in Hc, Hw. apply ge_zero_not_negative in Hf.
  exists (nx d), (ny d). split; [reflexivity |]. split.
  - assert (Hx : 0 <= nx d).
    { eapply int_not_negative; [| exact Hnx].
      apply fdiv_not_negative; assumption. }
    destruct (Z.eq_dec (nx d) 0) as [H0 | H0]; [| lia].
    exfalso. rewrite H0 in Ha. eapply zero_count_fails; eassumption.
  - eapply int_not_negative; [| exact Hny].
    apply fdiv_not_negative; assumption.
Qed.

(** X8. The desired dimensions and [nx] are not written into the geometry
    script: the script is the same for any desired width and heights and any
    [nx], as long as the cell size, the transition region height, the
    offset and the other derived locals are the same. *)
Theorem script_ignores_desired_dimensions
    (cellSize transitionRegionHeight eps : Py.float)
    (desiredDomainWidth desiredDomainHeight desiredFineRegionHeight : Py.float)
    (desiredDomainWidth' desiredDomainHeight' desiredFineRegionHeight'
     : Py.float)
    (d d' : dimensions) :
  ny d = ny d' ->
  actualFineRegionHeight d = actualFineRegionHeight d' ->
  actualDomainWidth d = actualDomainWidth d' ->
  boundaryLayerHeight d = boundaryLayerHeight d' ->
  numberOfBoundaryLayerCells d = numberOfBoundaryLayerCells d' ->
  py_mod format_g geometry_template
    (locals cellSize desiredDomainWidth desiredDomainHeight
       desiredFineRegionHeight transitionRegionHeight d eps) =
  py_mod format_g geometry_template
    (locals cellSize desiredDomainWidth' desiredDomainHeight'
       desiredFineRegionHeight' transitionRegionHeight d' eps).
Proof.
  intros Hy Hf Hw Hb Hn. rewrite !format_geometry_template.
  unfold script_text. rewrite Hy, Hf, Hw, Hb, Hn. reflexivity.
Qed.

Section RunMore.

Context {W : Type}.
Variable h : handler W.

(** X9. A length that is NaN or infinite stops the constructor in the
    sizing arithmetic: it raises before it makes any call, and leaves the
    world as it was. *)
Theorem non_finite_arguments_raise (w : W)
    (cellSize desiredDomainWidth desiredDomainHeight
     desiredFineRegionHeight transitionRegionHeight : Py.float)
    (communicator : Comm) :
  finite cellSize && finite desiredDomainWidth && finite desiredDomainHeight
  && finite desiredFineRegionHeight && finite transitionRegionHeight
  = false ->
  exists e : exn,
    run h (__init__ cellSize desiredDomainWidth desiredDomainHeight
             desiredFineRegionHeight transitionRegionHeight communicator) w =
    (inl e, w) /\
    calls h (__init__ cellSize desiredDomainWidth desiredDomainHeight
               desiredFineRegionHeight transitionRegionHeight communicator)
      w = [].
Proof.
  intros Hf. rewrite run_init. unfold outcome, __init__.
  destruct (mesh_dimensions _ _ _ _ _) as [e | d] eqn:H.
  - exists e. split; reflexivity.
  - apply sizing_arguments_finite in H.
    destruct H as (H1 & H2 & H3 & H4 & H5).
    rewrite H1, H2, H3, H4, H5 in Hf. discriminate.
Qed.

(** X10. A cell size of zero, of either sign, stops the constructor with
    [ZeroDivisionError] at its first division, before any call, whatever the
    other arguments. *)
Theorem zero_cell_size_stops_constructor (w : W)
    (cellSize desiredDomainWidth desiredDomainHeight
     desiredFineRegionHeight transitionRegionHeight : Py.float)
    (communicator : Comm) :
  Py.is_zero cellSize = true ->
  run h (__init__ cellSize desiredDomainWidth desiredDomainHeight
           desiredFineRegionHeight transitionRegionHeight communicator) w =
  (inl ZeroDivisionError, w) /\
  calls h (__init__ cellSize desiredDomainWidth desiredDomainHeight
             desiredFineRegionHeight transitionRegionHeight communicator)
    w = [].
Proof.
  intros Hz. rewrite run_init. unfold outcome, __init__.
  rewrite (zero_cell_size_raises _ _ _ _ _ Hz). split; reflexivity.
Qed.

(** X11. The constructor calls the library at most three times, and in one
    order: [Grid2D] for the fine mesh, then [_gmshVersion], then
    [Gmsh2D.__init__] with the script and the communicator of the caller.
    When the arithmetic raises it makes no call at all. *)
Theorem calls_in_order (w : W)
    (cellSize desiredDomainWidth desiredDomainHeight
     desiredFineRegionHeight transitionRegionHeight : Py.float)
    (communicator : Comm) :
  match mesh_dimensions cellSize desiredDomainWidth desiredDomainHeight
          desiredFineRegionHeight transitionRegionHeight with
  | inl _ =>
      calls h (__init__ cellSize desiredDomainWidth desiredDomainHeight
                 desiredFineRegionHeight transitionRegionHeight communicator)
        w = []
  | inr d =>
      exists rest : list call,
        calls h (__init__ cellSize desiredDomainWidth desiredDomainHeight
                   desiredFineRegionHeight transitionRegionHeight
                   communicator) w =
        Grid2D (nx d) (ny d) cellSize cellSize serialComm :: rest /\
        (rest = [] \/
         rest = [_gmshVersion] \/
         exists eps : Py.float,
           rest = [_gmshVersion;
                   Gmsh2D_init
                     (script_text cellSize transitionRegionHeight d eps)
                     communicator])
  end.
Proof.
  unfold __init__.
  destruct (mesh_dimensions _ _ _ _ _) as [e | d]; [reflexivity |].
  cbn [lift pbind perform calls].
  eexists. split; [reflexivity |].
  destruct (h (Grid2D _ _ _ _ _) w) as [[e | fine] w1]; [left; reflexivity |].
  cbn [lift pbind perform calls].
  destruct (h _gmshVersion w1) as [[e | v] w2];
    [right; left; reflexivity |].
  destruct (offset cellSize (nx d) v) as [e | eps];
    cbn [lift pbind perform calls]; [right; left; reflexivity |].
  rewrite format_geometry_template. cbn [lift pbind perform calls].
  right; right. exists eps.
  destruct (h (Gmsh2D_init _ _) w2) as [[e | g] w3]; reflexivity.
Qed.

(** X12. The communicator reaches [Gmsh2D.__init__] and nothing else:
    against a library whose [Gmsh2D.__init__] answers alike for two
    communicators, the constructor comes to the same result with either. *)
Theorem communicator_reaches_superclass_only (w : W)
    (cellSize desiredDomainWidth desiredDomainHeight
     desiredFineRegionHeight transitionRegionHeight : Py.float)
    (c1 c2 : Comm) :
  (forall (script : string) (w' : W),
      h (Gmsh2D_init script c1) w' = h (Gmsh2D_init script c2) w') ->
  run h (__init__ cellSize desiredDomainWidth desiredDomainHeight
           desiredFineRegionHeight transitionRegionHeight c1) w =
  run h (__init__ cellSize desiredDomainWidth desiredDomainHeight
           desiredFineRegionHeight transitionRegionHeight c2) w.
Proof.
  intros Hh. rewrite !run_init. unfold outcome.
  destruct (mesh_dimensions _ _ _ _ _) as [e | d]; [reflexivity |].
  destruct (h (Grid2D _ _ _ _ _) w) as [[e | fine] w1]; [reflexivity |].
  destruct (h _gmshVersion w1) as [[e | v] w2]; [reflexivity |].
  destruct (offset cellSize (nx d) v) as [e | eps]; [reflexivity |].
  unfold finish. rewrite Hh. reflexivity.
Qed.

(** X13. What a constructed object is made of: the constructor returns an
    object only after the arithmetic, the three calls and the offset all
    went through; its [fineMesh] is the answer of [Grid2D], its superclass
    part the answer of [Gmsh2D.__init__] to the script of these very
    dimensions and offset, and the world is the one that call left. *)
Theorem constructed_object (w w' : W)
    (cellSize desiredDomainWidth desiredDomainHeight
     desiredFineRegionHeight transitionRegionHeight : Py.float)
    (communicator : Comm) (o : GapFillMesh) :
  run h (__init__ cellSize desiredDomainWidth desiredDomainHeight
           desiredFineRegionHeight transitionRegionHeight communicator) w =
  (inr o, w') ->
  exists (d : dimensions) (v : Version) (eps : Py.float) (w1 w2 : W),
    mesh_dimensions cellSize desiredDomainWidth desiredDomainHeight
      desiredFineRegionHeight transitionRegionHeight = inr d /\
    h (Grid2D (nx d) (ny d) cellSize cellSize serialComm) w =
      (inr (fineMesh o), w1) /\
    h _gmshVersion w1 = (inr v, w2) /\
    offset cellSize (nx d) v = inr eps /\
    h (Gmsh2D_init (script_text cellSize transitionRegionHeight d eps)
         communicator) w2 = (inr (base o), w') /\
    calls h (__init__ cellSize desiredDomainWidth desiredDomainHeight
               desiredFineRegionHeight transitionRegionHeight communicator)
      w =
    [Grid2D (nx d) (ny d) cellSize cellSize serialComm;
     _gmshVersion;
     Gmsh2D_init (script_text cellSize transitionRegionHeight d eps)
       communicator].
Proof.
  rewrite run_init. unfold outcome, __init__.
  destruct (mesh_dimensions _ _ _ _ _) as [e | d]; [discriminate |].
  cbn [lift pbind perform calls].
  destruct (h (Grid2D _ _ _ _ _) w) as [[e | fine] w1] eqn:Hg;
    [discriminate |].
  cbn [lift pbind perform calls].
  destruct (h _gmshVersion w1) as [[e | v] w2] eqn:Hv; [discriminate |].
  destruct (offset cellSize (nx d) v) as [e | eps] eqn:Ho; [discriminate |].
  cbn [lift pbind perform calls]. rewrite format_geometry_template.
  cbn [lift pbind perform calls]. unfold finish.
  destruct (h (Gmsh2D_init _ _) w2) as [[e | g] w3] eqn:Hs; [discriminate |].
  intros H; injection H as <- <-.
  exists d, v, eps, w1, w2. repeat split; first [reflexivity | assumption].
Qed.

End RunMore.

End ConstructorMore.

(** ** The further properties at the doctest arguments *)

Lemma offset_not_negative_gmsh_2_6 : negative (Py.lit 0.001) = false.
Proof.
  exact (offset_not_negative (E := Doctest.env) Doctest.cellSize
           Doctest.desiredDomainWidth Doctest.desiredDomainHeight
           Doctest.desiredFineRegionHeight Doctest.transitionRegionHeight
           Doctest.dims (2, 6) (Py.lit 0.001)
           eq_refl eq_refl doctest_dimensions eq_refl).
Defined.

Lemma fine_mesh_ignores_heights_low_domain :
  first_call
    (__init__ (E := Doctest.env) Doctest.cellSize Doctest.desiredDomainWidth
       Doctest.desiredDomainHeight Doctest.desiredFineRegionHeight
       Doctest.transitionRegionHeight "parallelComm") =
  first_call
    (__init__ (E := Doctest.env) Doctest.cellSize Doctest.desiredDomainWidth
       LowDomain.desiredDomainHeight Doctest.desiredFineRegionHeight
       Doctest.transitionRegionHeight "parallelComm") /\
  nx Doctest.dims = nx LowDomain.dims /\
  ny Doctest.dims = ny LowDomain.dims /\
  actualFineRegionHeight Doctest.dims = actualFineRegionHeight LowDomain.dims /\
  actualDomainWidth Doctest.dims = actualDomainWidth LowDomain.dims.
Proof.
  exact (fine_mesh_ignores_heights (E := Doctest.env) Doctest.cellSize
           Doctest.desiredDomainWidth Doctest.desiredFineRegionHeight
           Doctest.desiredDomainHeight Doctest.transitionRegionHeight
           LowDomain.desiredDomainHeight Doctest.transitionRegionHeight
           "parallelComm" "parallelComm" Doctest.dims LowDomain.dims
           doctest_dimensions low_domain_dimensions).
Defined.

Lemma fine_mesh_has_a_column_doctest :
  exists n m : Z,
    @Grid2D Doctest.env 10 10 Doctest.cellSize Doctest.cellSize "serialComm" =
    @Grid2D Doctest.env n m Doctest.cellSize Doctest.cellSize "serialComm" /\
    1 <= n /\ 0 <= m.
Proof.
  exact (fine_mesh_has_a_column (E := Doctest.env) Doctest.cellSize
           Doctest.desiredDomainWidth Doctest.desiredDomainHeight
           Doctest.desiredFineRegionHeight Doctest.transitionRegionHeight
           "parallelComm"
           (@Grid2D Doctest.env 10 10 Doctest.cellSize Doctest.cellSize
              "serialComm")
           eq_refl eq_refl eq_refl eq_refl).
Defined.

Lemma script_ignores_desired_dimensions_doctest :
  py_mod (format_g (Environment := Doctest.env)) geometry_template
    (locals Doctest.cellSize Doctest.desiredDomainWidth
       Doctest.desiredDomainHeight Doctest.desiredFineRegionHeight
       Doctest.transitionRegionHeight Doctest.dims Py.zero) =
  py_mod (format_g (Environment := Doctest.env)) geometry_template
    (locals Doctest.cellSize (Py.lit 3) (Py.lit 7)
       (Py.lit 4) Doctest.transitionRegionHeight
       {| nx := 7;
          ny := ny Doctest.dims;
          actualFineRegionHeight := actualFineRegionHeight Doctest.dims;
          actualDomainWidth := actualDomainWidth Doctest.dims;
          boundaryLayerHeight := boundaryLayerHeight Doctest.dims;
          numberOfBoundaryLayerCells :=
            numberOfBoundaryLayerCells Doctest.dims |}
       Py.zero).
Proof.
  exact (script_ignores_desired_dimensions (E := Doctest.env)
           Doctest.cellSize Doctest.transitionRegionHeight Py.zero
           Doctest.desiredDomainWidth Doctest.desiredDomainHeight
           Doctest.desiredFineRegionHeight (Py.lit 3) (Py.lit 7) (Py.lit 4)
           Doctest.dims _ eq_refl eq_refl eq_refl eq_refl eq_refl).
Defined.

Lemma nan_cell_size_raises :
  exists e : exn,
    run (Doctest.library (2, 7))
      (__init__ (E := Doctest.env) S754_nan Doctest.desiredDomainWidth
         Doctest.desiredDomainHeight Doctest.desiredFineRegionHeight
         Doctest.transitionRegionHeight "parallelComm") [] =
    (inl e, []) /\
    calls (Doctest.library (2, 7))
      (__init__ (E := Doctest.env) S754_nan Doctest.desiredDomainWidth
         Doctest.desiredDomainHeight Doctest.desiredFineRegionHeight
         Doctest.transitionRegionHeight "parallelComm") [] = [].
Proof.
  exact (non_finite_arguments_raise (E := Doctest.env)
           (Doctest.library (2, 7)) [] S754_nan Doctest.desiredDomainWidth
           Doctest.desiredDomainHeight Doctest.desiredFineRegionHeight
           Doctest.transitionRegionHeight "parallelComm" eq_refl).
Defined.

Lemma negative_zero_cell_size_stops_constructor :
  run (Doctest.library (2, 7))
    (__init__ (E := Doctest.env) (S754_zero true) Doctest.desiredDomainWidth
       Doctest.desiredDomainHeight Doctest.desiredFineRegionHeight
       Doctest.transitionRegionHeight "parallelComm") [] =
  (inl ZeroDivisionError, []) /\
  calls (Doctest.library (2, 7))
    (__init__ (E := Doctest.env) (S754_zero true) Doctest.desiredDomainWidth
       Doctest.desiredDomainHeight Doctest.desiredFineRegionHeight
       Doctest.transitionRegionHeight "parallelComm") [] = [].
Proof.
  exact (zero_cell_size_stops_constructor (E := Doctest.env)
           (Doctest.library (2, 7)) [] (S754_zero true)
           Doctest.desiredDomainWidth Doctest.desiredDomainHeight
           Doctest.desiredFineRegionHeight Doctest.transitionRegionHeight
           "parallelComm" eq_refl).
Defined.

Lemma communicator_on_one_process :
  run Doctest.library_on_one_process
    (__init__ (E := Doctest.env) Doctest.cellSize Doctest.desiredDomainWidth
       Doctest.desiredDomainHeight Doctest.desiredFineRegionHeight
       Doctest.transitionRegionHeight "serialComm") [] =
  run Doctest.library_on_one_process
    (__init__ (E := Doctest.env) Doctest.cellSize Doctest.desiredDomainWidth
       Doctest.desiredDomainHeight Doctest.desiredFineRegionHeight
       Doctest.transitionRegionHeight "parallelComm") [].
Proof.
  exact (communicator_reaches_superclass_only (E := Doctest.env)
           Doctest.library_on_one_process [] Doctest.cellSize
           Doctest.desiredDomainWidth Doctest.desiredDomainHeight
           Doctest.desiredFineRegionHeight Doctest.transitionRegionHeight
           "serialComm" "parallelComm" (fun _ _ => eq_refl)).
Defined.

Lemma constructed_object_doctest :
  exists (d : dimensions) (v : Z * Z) (eps : Py.float)
         (w1 w2 : list string),
    mesh_dimensions Doctest.cellSize Doctest.desiredDomainWidth
      Doctest.desiredDomainHeight Doctest.desiredFineRegionHeight
      Doctest.transitionRegionHeight = inr d /\
    Doctest.library (2, 7)
      (@Grid2D Doctest.env (nx d) (ny d) Doctest.cellSize Doctest.cellSize
         "serialComm") [] =
      (inr (fineMesh (Doctest.built Py.zero "parallelComm")), w1) /\
    Doctest.library (2, 7) (@_gmshVersion Doctest.env) w1 = (inr v, w2) /\
    offset (E := Doctest.env) Doctest.cellSize (nx d) v = inr eps /\
    Doctest.library (2, 7)
      (@Gmsh2D_init Doctest.env
         (script_text (E := Doctest.env) Doctest.cellSize
            Doctest.transitionRegionHeight d eps) "parallelComm") w2 =
      (inr (base (Doctest.built Py.zero "parallelComm")), Doctest.log) /\
    calls (Doctest.library (2, 7))
      (__init__ (E := Doctest.env) Doctest.cellSize
         Doctest.desiredDomainWidth Doctest.desiredDomainHeight
         Doctest.desiredFineRegionHeight Doctest.transitionRegionHeight
         "parallelComm") [] =
    [@Grid2D Doctest.env (nx d) (ny d) Doctest.cellSize Doctest.cellSize
       "serialComm";
     @_gmshVersion Doctest.env;
     @Gmsh2D_init Doctest.env
       (script_text (E := Doctest.env) Doctest.cellSize
          Doctest.transitionRegionHeight d eps) "parallelComm"].
Proof.
  exact (constructed_object (E := Doctest.env) (Doctest.library (2, 7)) []
           Doctest.log Doctest.cellSize Doctest.desiredDomainWidth
           Doctest.desiredDomainHeight Doctest.desiredFineRegionHeight
           Doctest.transitionRegionHeight "parallelComm"
           (Doctest.built Py.zero "parallelComm") eq_refl).
Defined.

(** ** The float of a positive integer *)

Lemma shr_1_m (r : shr_record) :
  0 <= shr_m r -> shr_m (shr_1 r) = shr_m r / 2.
Proof.
  destruct r as [m rb sb]; cbn [shr_m]. intros Hm.
  destruct m as [| p | p]; [reflexivity | | lia].
  destruct p as [p | p |]; cbn [shr_1 shr_m].
  - apply Z.div_unique with (r := 1); lia.
  - apply Z.div_unique with (r := 0); lia.
  - reflexivity.
Qed.

Lemma iter_shr_1_m (n : positive) (r : shr_record) :
  0 <= shr_m r -> shr_m (iter_pos shr_1 n r) = shr_m r / 2 ^ Zpos n.
Proof.
  revert r. induction n as [n IH | n IH |]; intros r Hr; cbn [iter_pos].
  - assert (H1 : 0 <= shr_m (shr_1 r))
      by (rewrite shr_1_m by assumption; apply Z.div_pos; lia).
    assert (H2 : 0 <= shr_m (iter_pos shr_1 n (shr_1 r)))
      by (rewrite IH by assumption; apply Z.div_pos;
          [assumption | apply Z.pow_pos_nonneg; lia]).
    rewrite IH, IH, shr_1_m by assumption.
    assert (Hp : 0 < 2 ^ Z.pos n) by (apply Z.pow_pos_nonneg; lia).
    rewrite !Z.div_div by lia. f_equal.
    replace (Z.pos n~1) with (Z.pos n + Z.pos n + 1) by lia.
    rewrite !Z.pow_add_r by lia. change (2 ^ 1) with 2. ring.
  - assert (H2 : 0 <= shr_m (iter_pos shr_1 n r))
      by (rewrite IH by assumption; apply Z.div_pos;
          [assumption | apply Z.pow_pos_nonneg; lia]).
    rewrite IH, IH by assumption.
    assert (Hp : 0 < 2 ^ Z.pos n) by (apply Z.pow_pos_nonneg; lia).
    rewrite Z.div_div by lia. f_equal.
    replace (Z.pos n~0) with (Z.pos n + Z.pos n) by lia.
    rewrite Z.pow_add_r by lia. reflexivity.
  - apply shr_1_m. assumption.
Qed.

Lemma digits2_pos_lower (m : positive) :
  2 ^ (Zpos (digits2_pos m) - 1) <= Zpos m.
Proof.
  induction m as [m IH | m IH |]; cbn [digits2_pos];
    [| | cbn; lia];
    rewrite Pos2Z.inj_succ;
    replace (Z.succ (Z.pos (digits2_pos m)) - 1)
      with (Z.succ (Z.pos (digits2_pos m) - 1)) by lia;
    rewrite Z.pow_succ_r by lia; lia.
Qed.

Lemma digits2_pos_iter_xO (m n : positive) :
  digits2_pos (Pos.iter xO m n) = (digits2_pos m + n)%positive.
Proof.
  induction n as [| n IH] using Pos.peano_ind.
  - cbn. now rewrite Pos.add_1_r.
  - rewrite Pos.iter_succ. cbn [digits2_pos].
    now rewrite IH, Pos.add_succ_r.
Qed.

Lemma shr_record_of_loc_m (m : Z) (l : location) :
  shr_m (shr_record_of_loc m l) = m.
Proof. destruct l as [| []]; reflexivity. Qed.

(** Above the smallest exponent, shifting a mantissa into the format leaves
    it positive. *)
Lemma shr_fexp_positive (m : positive) (e : Z) (l : location)
    (mrs : shr_record) (e' : Z) :
  emin < Zpos (digits2_pos m) + e ->
  shr_fexp prec emax (Zpos m) e l = (mrs, e') ->
  0 < shr_m mrs /\ emin <= e'.
Proof.
  intros Hd. unfold shr_fexp, shr. cbn [Zdigits2].
  assert (Hf : fexp prec emax (Zpos (digits2_pos m) + e) <
               Zpos (digits2_pos m) + e /\
               emin <= fexp prec emax (Zpos (digits2_pos m) + e)).
  { unfold fexp. change (SpecFloat.emin prec emax) with (-1074) in *.
    change prec with 53. lia. }
  destruct Hf as [Hf1 Hf2].
  destruct (fexp prec emax (Zpos (digits2_pos m) + e) - e) as [| p | p] eqn:Hn;
    intros H; injection H as <- <-.
  - rewrite shr_record_of_loc_m. lia.
  - rewrite iter_shr_1_m by (rewrite shr_record_of_loc_m; lia).
    rewrite shr_record_of_loc_m. split; [| lia].
    apply Z.div_str_pos. split; [apply Z.pow_pos_nonneg; lia |].
    etransitivity; [| apply digits2_pos_lower].
    apply Z.pow_le_mono_r; lia.
  - rewrite shr_record_of_loc_m. lia.
Qed.

Lemma round_nearest_even_positive (m : Z) (l : location) :
  0 < m -> 0 < round_nearest_even m l.
Proof.
  intros Hm. destruct l as [| []]; cbn [round_nearest_even]; try lia.
  destruct (Z.even m); lia.
Qed.

(** Above the smallest exponent, rounding a positive mantissa gives a
    finite number that is not zero, or an infinity. *)
Lemma binary_round_aux_not_zero (s : bool) (m : positive) (e : Z)
    (l : location) :
  emin < Zpos (digits2_pos m) + e ->
  match binary_round_aux prec emax s (Zpos m) e l with
  | S754_finite s' _ _ | S754_infinity s' => s' = s
  | _ => False
  end.
Proof.
  intros Hd. unfold binary_round_aux.
  destruct (shr_fexp prec emax (Zpos m) e l) as [mrs' e'] eqn:H1.
  apply shr_fexp_positive in H1; [| assumption]. destruct H1 as [Hm He].
  pose proof (round_nearest_even_positive _ (loc_of_shr_record mrs') Hm)
    as Hr.
  destruct (round_nearest_even (shr_m mrs') (loc_of_shr_record mrs'))
    as [| m2 | m2]; try lia.
  destruct (shr_fexp prec emax (Zpos m2) e' loc_Exact) as [mrs'' e''] eqn:H2.
  apply shr_fexp_positive in H2; [| lia]. destruct H2 as [Hm2 _].
  destruct (shr_m mrs'') as [| m3 | m3]; try lia.
  destruct (Z.leb e'' (emax - prec)); reflexivity.
Qed.

(** An integer that is not zero rounds to a finite number that is not
    zero, or to an infinity. *)
Lemma binary_round_integer (s : bool) (m : positive) :
  match binary_round prec emax s m 0 with
  | S754_finite s' _ _ | S754_infinity s' => s' = s
  | _ => False
  end.
Proof.
  unfold binary_round. rewrite Z.add_0_r.
  destruct (shl_align m 0 (fexp prec emax (Zpos (digits2_pos m))))
    as [mz ez] eqn:Ha.
  apply binary_round_aux_not_zero.
  unfold shl_align in Ha.
  destruct (fexp prec emax (Zpos (digits2_pos m)) - 0) as [| p | p]
    eqn:Hp; injection Ha as <- <-.
  - change (SpecFloat.emin prec emax) with (-1074). lia.
  - change (SpecFloat.emin prec emax) with (-1074). lia.
  - rewrite digits2_pos_iter_xO, Pos2Z.inj_add.
    change (SpecFloat.emin prec emax) with (-1074). lia.
Qed.

(** [float(n)] of an integer that is not zero is a finite float that is not
    zero, if it is not out of range. *)
Lemma float_of_int_not_zero (n : Z) (x : Py.float) :
  n <> 0 -> Py.float_of_int n = inr x ->
  Py.is_zero x = false /\ finite x = true.
Proof.
  intros Hn. unfold Py.float_of_int, binary_normalize.
  destruct n as [| m | m]; try lia.
  - pose proof (binary_round_integer false m) as Hr.
    destruct (binary_round prec emax false m 0) as [s | s | | s m' e'];
      try contradiction; [discriminate |].
    intros H; injection H as <-. split; reflexivity.
  - pose proof (binary_round_integer true m) as Hr.
    destruct (binary_round prec emax true m 0) as [s | s | | s m' e'];
      try contradiction; [discriminate |].
    intros H; injection H as <-. split; reflexivity.
Qed.

(** Dividing by a finite float that is not zero never raises. *)
Lemma div_by_not_zero (x y : Py.float) :
  Py.is_zero y = false -> Py.div x y = inr (Py.fdiv x y).
Proof. intros Hz. unfold Py.div. rewrite Hz. reflexivity. Qed.

(** X14. Once the sizing arithmetic went through, the arithmetic of the
    offset cannot divide by zero: it raises only with gmsh below 2.7 and
    [nx * 10] beyond the range of the floats, and then [OverflowError]. *)
Theorem offset_raises_overflow_only {E : Environment}
    (cellSize desiredDomainWidth desiredDomainHeight
     desiredFineRegionHeight transitionRegionHeight : Py.float)
    (d : dimensions) (v : Version) (e : exn) :
  mesh_dimensions cellSize desiredDomainWidth desiredDomainHeight
    desiredFineRegionHeight transitionRegionHeight = inr d ->
  offset cellSize (nx d) v = inl e ->
  e = OverflowError /\
  version_lt v (StrictVersion "2.7") = true /\
  Py.float_of_int (nx d * 10) = inl OverflowError.
Proof.
  intros H. apply mesh_dimensions_inv in H.
  destruct H as (_ & _ & _ & _ & Ha & _ & Hzw & Hn).
  assert (H0 : nx d <> 0).
  { intros H0. rewrite H0 in Ha. eapply zero_count_fails; eassumption. }
  unfold offset. destruct (version_lt v (StrictVersion "2.7"));
    [| discriminate].
  unfold Py.div_int.
  destruct (Py.float_of_int (nx d * 10)) as [e' | fn] eqn:Hfn; cbn [bind].
  - intros He; injection He as <-.
    assert (e' = OverflowError).
    { unfold Py.float_of_int in Hfn.
      destruct (binary_normalize prec emax (nx d * 10) 0 false);
        unfold raise, ret in Hfn; congruence. }
    subst e'. repeat split; reflexivity.
  - apply float_of_int_not_zero in Hfn; [| lia]. destruct Hfn as [Hz _].
    rewrite (div_by_not_zero _ _ Hz). discriminate.
Qed.

Lemma wide_domain_dimensions :
  mesh_dimensions WideDomain.cellSize WideDomain.desiredDomainWidth
    Doctest.desiredDomainHeight Doctest.desiredFineRegionHeight
    Doctest.transitionRegionHeight = inr WideDomain.dims.
Proof. vm_compute. reflexivity. Qed.

Lemma offset_overflows_on_wide_domain :
  OverflowError = OverflowError /\
  version_lt (Environment := Doctest.env) (2, 6)
    (StrictVersion (Environment := Doctest.env) "2.7") = true /\
  Py.float_of_int (nx WideDomain.dims * 10) = inl OverflowError.
Proof.
  exact (offset_raises_overflow_only (E := Doctest.env) WideDomain.cellSize
           WideDomain.desiredDomainWidth Doctest.desiredDomainHeight
           Doctest.desiredFineRegionHeight Doctest.transitionRegionHeight
           WideDomain.dims (2, 6) OverflowError
           wide_domain_dimensions eq_refl).
Defined.

Lemma thin_region_dimensions :
  mesh_dimensions Doctest.cellSize Doctest.desiredDomainWidth
    Doctest.desiredDomainHeight ThinRegion.desiredFineRegionHeight
    Doctest.transitionRegionHeight = inr ThinRegion.dims.
Proof. vm_compute. reflexivity. Qed.

(** X15. A fine region lower than one cell is not refused: when the
    constructor derives [ny = 0] from a positive cell size, the actual fine
    region height is [0.] and the boundary layer height is
    [desiredDomainHeight - 0. - transitionRegionHeight]. *)
Theorem empty_fine_region
    (cellSize desiredDomainWidth desiredDomainHeight
     desiredFineRegionHeight transitionRegionHeight : Py.float)
    (d : dimensions) :
  Py.gt cellSize Py.zero = true ->
  mesh_dimensions cellSize desiredDomainWidth desiredDomainHeight
    desiredFineRegionHeight transitionRegionHeight = inr d ->
  ny d = 0 ->
  actualFineRegionHeight d = Py.zero /\
  boundaryLayerHeight d =
    Py.fsub (Py.fsub desiredDomainHeight Py.zero) transitionRegionHeight.
Proof.
  intros Hc H Hy.
  pose proof (sizing_arguments_finite _ _ _ _ _ _ H) as (Hf & _).
  apply mesh_dimensions_inv in H.
  destruct H as (_ & _ & _ & Hh & _ & Hb & _).
  rewrite Hy in Hh.
  assert (Ha : actualFineRegionHeight d = Py.zero).
  { destruct cellSize as [s | s | | [] m e]; try discriminate.
    cbn in Hh. injection Hh as <-. reflexivity. }
  split; [exact Ha |]. rewrite Hb, Ha. reflexivity.
Qed.

Lemma empty_fine_region_example :
  actualFineRegionHeight ThinRegion.dims = Py.zero /\
  boundaryLayerHeight ThinRegion.dims =
    Py.fsub (Py.fsub Doctest.desiredDomainHeight Py.zero)
      Doctest.transitionRegionHeight.
Proof.
  exact (empty_fine_region Doctest.cellSize Doctest.desiredDomainWidth
           Doctest.desiredDomainHeight ThinRegion.desiredFineRegionHeight
           Doctest.transitionRegionHeight ThinRegion.dims
           eq_refl thin_region_dimensions eq_refl).
Defined.
